(** * Environmental dashboard (app.py): data loading and query handlers

    A shallow embedding of [app.py].  The module-level loader and the seven
    query handlers are written as functions over a model of the pandas
    [DataFrame] the program keeps in the global [df].

    Conventions of the model.
    - A column has one of the two dtypes [read_csv] infers: numeric
      (int64/float64) or object (strings).  Numbers are rationals: they
      stand for the finite values of a column, without binary rounding
      and without NaN cells.  The mean of an empty column, which pandas
      returns as NaN, is kept as a separate value.
    - A Python exception is a value of [exn]; code that may raise lives in
      the [result] monad, and [try ... except Exception] is a match on it.
    - Text built with f-strings or HTML templates is represented by the
      values it formats; a numeric format applied to a string raises, as
      in Python.
    - [sort_values] and [value_counts] are called with their default
      [kind='quicksort'], which pandas documents as not stable.  The
      order it computes is a parameter [argsort] of the model, constrained
      only by what every sorting kind guarantees ([argsort_spec]);
      [quicksort_indexer] is the order numpy's scalar quicksort gives.
    - The records of a JSON answer are taken up to the order of their
      keys, which [jsonify] sorts. *)

From Stdlib Require Import List String Ascii Bool Arith ZArith QArith Qround.
From Stdlib Require Import Lia Lqa Permutation Sorted.
Import ListNotations.

Close Scope Q_scope.
Local Open Scope list_scope.
Local Open Scope string_scope.

(** ** Python values and exceptions *)

Module Py.

Inductive exn : Type :=
| KeyError (key : string)
| TypeError
| ValueError
| ZeroDivisionError.

Inductive result (A : Type) : Type :=
| Ok (a : A)
| Raise (e : exn).
Arguments Ok {A} a.
Arguments Raise {A} e.

Definition bind {A B : Type} (c : result A) (k : A -> result B) : result B :=
  match c with
  | Ok a => k a
  | Raise e => Raise e
  end.

(** [for x in l: body] where the body may raise: the first exception
    leaves the loop. *)
Fixpoint for_each {A B : Type} (f : A -> result B) (l : list A)
  : result (list B) :=
  match l with
  | [] => Ok []
  | x :: t =>
      bind (f x) (fun y => bind (for_each f t) (fun ys => Ok (y :: ys)))
  end.

Definition Qltb (a b : Q) : bool := negb (Qle_bool b a).

(** The builtins [max(a, b)] and [min(a, b)]: the first argument is kept
    unless the second is strictly greater (smaller). *)
Definition max (a b : Q) : Q := if Qltb a b then b else a.
Definition min (a b : Q) : Q := if Qltb b a then b else a.

(** [int(x)] of a number: truncation towards zero. *)
Definition int (x : Q) : Z := Z.quot (Qnum x) (Zpos (Qden x)).

(** [round(x, d)] on an exact value: to the nearest multiple of [10^-d],
    halves to the even neighbour. *)
Definition round (x : Q) (d : nat) : Q :=
  let scale := inject_Z (10 ^ Z.of_nat d) in
  let s := (x * scale)%Q in
  let f := Qfloor s in
  let r := (s - inject_Z f)%Q in
  let n :=
    match Qcompare r (1 # 2) with
    | Lt => f
    | Gt => (f + 1)%Z
    | Eq => if Z.even f then f else (f + 1)%Z
    end in
  (inject_Z n / scale)%Q.

(** [s * n] on a string: [n] copies of [s]. *)
Fixpoint str_repeat (s : string) (n : nat) : string :=
  match n with
  | O => EmptyString
  | S k => String.append s (str_repeat s k)
  end.

End Py.

Import Py.

Notation "x <- c ;; k" := (bind c (fun x => k))
  (at level 61, c at next level, right associativity).

(** ** The pandas operations the program uses *)

Module Pandas.

(** A value held in a frame. *)
Inductive cell : Type :=
| CNum (q : Q)
| CStr (s : string).

(** A float that may be NaN (the mean of nothing). *)
Inductive pyfloat : Type :=
| Fin (q : Q)
| NaN.

Inductive column : Type :=
| NumCol (l : list Q)
| StrCol (l : list string).

Definition cells (c : column) : list cell :=
  match c with
  | NumCol l => map CNum l
  | StrCol l => map CStr l
  end.

Definition col_len (c : column) : nat :=
  match c with
  | NumCol l => List.length l
  | StrCol l => List.length l
  end.

(** A frame: the length of its index and its columns in order. *)
Record DataFrame : Type := mkFrame {
  nrows : nat;
  cols : list (string * column)
}.

(** Every column is as long as the index. *)
Definition wf (df : DataFrame) : Prop :=
  Forall (fun kc => col_len (snd kc) = nrows df) (cols df).

Fixpoint lookup (k : string) (l : list (string * column)) : option column :=
  match l with
  | [] => None
  | (k', c) :: t => if String.eqb k k' then Some c else lookup k t
  end.

(** [k in df.columns] *)
Definition has_col (k : string) (df : DataFrame) : bool :=
  match lookup k (cols df) with Some _ => true | None => false end.

(** [df[k]] *)
Definition getitem (k : string) (df : DataFrame) : result column :=
  match lookup k (cols df) with
  | Some c => Ok c
  | None => Raise (KeyError k)
  end.

Fixpoint set_col (k : string) (c : column) (l : list (string * column))
  : list (string * column) :=
  match l with
  | [] => [(k, c)]
  | (k', c') :: t =>
      if String.eqb k k' then (k', c) :: t else (k', c') :: set_col k c t
  end.

(** [df[k] = c]: an existing column is replaced where it stands, a new
    one is appended. *)
Definition setitem (k : string) (c : column) (df : DataFrame) : DataFrame :=
  mkFrame (nrows df) (set_col k c (cols df)).

(** [df[k] = v] for a number [v]: the value is repeated along the index. *)
Definition setitem_scalar (k : string) (v : Q) (df : DataFrame) : DataFrame :=
  setitem k (NumCol (repeat v (nrows df))) df.

(** [len(df)] *)
Definition len (df : DataFrame) : nat := nrows df.

(** [col == s] for a string [s]: elementwise, and false on every number. *)
Definition eq_str (c : column) (s : string) : list bool :=
  match c with
  | NumCol l => map (fun _ => false) l
  | StrCol l => map (fun x => String.eqb x s) l
  end.

(** Selection by a boolean mask. *)
Fixpoint mask_list {A : Type} (m : list bool) (l : list A) : list A :=
  match m, l with
  | b :: m', x :: l' => if b then x :: mask_list m' l' else mask_list m' l'
  | _, _ => []
  end.

Definition mask_col (m : list bool) (c : column) : column :=
  match c with
  | NumCol l => NumCol (mask_list m l)
  | StrCol l => StrCol (mask_list m l)
  end.

(** The positions of the index a mask selects. *)
Definition selected (m : list bool) (n : nat) : list nat :=
  mask_list m (seq 0 n).

(** [df[mask]] *)
Definition filter_rows (m : list bool) (df : DataFrame) : DataFrame :=
  mkFrame (List.length (selected m (nrows df)))
          (map (fun kc => (fst kc, mask_col m (snd kc))) (cols df)).

Definition Qsum (l : list Q) : Q := fold_right Qplus 0%Q l.

(** [col.mean()]: NaN on an empty column, [TypeError] on strings. *)
Definition mean (c : column) : result pyfloat :=
  match c with
  | NumCol [] => Ok NaN
  | NumCol l => Ok (Fin (Qsum l / inject_Z (Z.of_nat (List.length l))))
  | StrCol [] => Ok NaN
  | StrCol _ => Raise TypeError
  end.

(** [col.sum()]: strings are concatenated, the empty sum is 0. *)
Definition sum (c : column) : cell :=
  match c with
  | NumCol l => CNum (Qsum l)
  | StrCol [] => CNum 0
  | StrCol l => CStr (String.concat EmptyString l)
  end.

Fixpoint argmax_from (best : Q) (besti i : nat) (l : list Q) : nat :=
  match l with
  | [] => besti
  | x :: t =>
      if Qltb best x then argmax_from x i (S i) t
      else argmax_from best besti (S i) t
  end.

(** [col.idxmax()]: the first position of the maximum. *)
Definition idxmax (c : column) : result nat :=
  match c with
  | NumCol [] => Raise ValueError
  | NumCol (x :: t) => Ok (argmax_from x 0%nat 1%nat t)
  | StrCol _ => Raise TypeError
  end.

(** [col * k] for a whole number [k]. *)
Definition mul_scalar (c : column) (k : nat) : column :=
  match c with
  | NumCol l => NumCol (map (fun x => (x * inject_Z (Z.of_nat k))%Q) l)
  | StrCol l => StrCol (map (fun s => str_repeat s k) l)
  end.

(** A row as [iterrows], [loc] and [to_dict('records')] give it. *)
Definition row : Type := list (string * cell).

(** The cell of a column at a position of the index (positions beyond
    the column, which a well-formed frame never reads, give 0 or the
    empty string). *)
Definition cell_at (c : column) (i : nat) : cell :=
  match c with
  | NumCol l => CNum (nth i l 0%Q)
  | StrCol l => CStr (nth i l EmptyString)
  end.

Definition row_at (df : DataFrame) (i : nat) : row :=
  map (fun kc => (fst kc, cell_at (snd kc) i)) (cols df).

Fixpoint row_lookup (k : string) (r : row) : option cell :=
  match r with
  | [] => None
  | (k', v) :: t => if String.eqb k k' then Some v else row_lookup k t
  end.

(** [row[k]] *)
Definition row_getitem (k : string) (r : row) : result cell :=
  match row_lookup k r with
  | Some v => Ok v
  | None => Raise (KeyError k)
  end.

(** [row.get(k, default)] *)
Definition row_get (k : string) (default : cell) (r : row) : cell :=
  match row_lookup k r with
  | Some v => v
  | None => default
  end.

(** [df.iterrows()] and [df.to_dict('records')] *)
Definition iterrows (df : DataFrame) : list row :=
  map (row_at df) (seq 0 (nrows df)).

Definition to_dict_records (df : DataFrame) : list row := iterrows df.

(** [df[[k1, ..., kn]]] *)
Definition select (ks : list string) (df : DataFrame) : result DataFrame :=
  cs <- for_each (fun k => c <- getitem k df ;; Ok (k, c)) ks ;;
  Ok (mkFrame (nrows df) cs).

Definition cell_eqb (a b : cell) : bool :=
  match a, b with
  | CNum p, CNum q => Qeq_bool p q
  | CStr s, CStr t => String.eqb s t
  | _, _ => false
  end.

(** The order sorting compares keys with: numbers by value, strings
    lexicographically.  A column never mixes the two. *)
Definition cell_leb (a b : cell) : bool :=
  match a, b with
  | CNum p, CNum q => Qle_bool p q
  | CStr s, CStr t => String.leb s t
  | CNum _, CStr _ => true
  | CStr _, CNum _ => false
  end.

(** Reordering by an indexer. *)
Definition take {A : Type} (idx : list nat) (l : list A) (d : A) : list A :=
  map (fun i => nth i l d) idx.

Definition take_col (idx : list nat) (c : column) : column :=
  match c with
  | NumCol l => NumCol (take idx l 0%Q)
  | StrCol l => StrCol (take idx l EmptyString)
  end.

Definition take_rows (idx : list nat) (df : DataFrame) : DataFrame :=
  mkFrame (List.length idx)
          (map (fun kc => (fst kc, take_col idx (snd kc))) (cols df)).

(** What every sorting kind guarantees of the indexer of a descending
    sort: it lists each position once, and the keys do not increase
    along it. *)
Definition desc_along (ks : list cell) (i j : nat) : Prop :=
  cell_leb (nth j ks (CNum 0)) (nth i ks (CNum 0)) = true.

Definition argsort_spec (argsort : list cell -> list nat) : Prop :=
  forall ks,
    Permutation (argsort ks) (seq 0 (List.length ks)) /\
    Sorted (desc_along ks) (argsort ks).

(** Two sorts that meet it, by insertion from the last key to the first.
    [before x y] tells whether the key [x] being inserted goes in front
    of the key [y] already placed. *)
Fixpoint insert_desc (before : cell -> cell -> bool) (x : nat * cell)
  (l : list (nat * cell)) : list (nat * cell) :=
  match l with
  | [] => [x]
  | y :: t =>
      if before (snd x) (snd y) then x :: y :: t
      else y :: insert_desc before x t
  end.

Definition argsort_by (before : cell -> cell -> bool) (ks : list cell)
  : list nat :=
  map fst (fold_right (insert_desc before) []
             (combine (seq 0 (List.length ks)) ks)).

(** Equal keys keep their order ([kind='stable']). *)
Definition argsort_stable : list cell -> list nat :=
  argsort_by (fun x y => cell_leb y x).

(** Equal keys come out in the opposite order. *)
Definition argsort_ties_reversed : list cell -> list nat :=
  argsort_by (fun x y => negb (cell_leb x y)).

Fixpoint count_into (x : cell) (acc : list (cell * nat)) : list (cell * nat) :=
  match acc with
  | [] => [(x, 1%nat)]
  | (y, n) :: t =>
      if cell_eqb x y then (y, S n) :: t else (y, n) :: count_into x t
  end.

(** The distinct values with their counts, in first-seen order. *)
Definition counts_first_seen (l : list cell) : list (cell * nat) :=
  fold_left (fun acc x => count_into x acc) l [].

Definition count_key (p : cell * nat) : cell :=
  CNum (inject_Z (Z.of_nat (snd p))).

Section Sorting.

Variable argsort : list cell -> list nat.

(** [df.sort_values(k, ascending=False)] *)
Definition sort_values_desc (k : string) (df : DataFrame) : result DataFrame :=
  c <- getitem k df ;;
  Ok (take_rows (argsort (cells c)) df).

(** [col.value_counts().to_dict()]: the counts, sorted by count
    descending (the default [sort=True]), as an ordered dict. *)
Definition value_counts (c : column) : list (cell * nat) :=
  let vc := counts_first_seen (cells c) in
  take (argsort (map count_key vc)) vc (CNum 0, 0%nat).

End Sorting.

End Pandas.

Import Pandas.

(** ** Loading the data at startup (app.py, lines 23-51) *)

(** The body of the [try] once [read_csv] has returned [df]. *)
Definition normalize (df : DataFrame) : result DataFrame :=
  df <- (if has_col "latitude" df
         then (c <- getitem "latitude" df ;; Ok (setitem "lat" c df))
         else Ok df) ;;
  df <- (if has_col "longitude" df
         then (c <- getitem "longitude" df ;; Ok (setitem "lon" c df))
         else Ok df) ;;
  let df := if negb (has_col "population" df)
            then setitem_scalar "population" 50000%Q df else df in
  let df := if negb (has_col "total_budget" df)
            then setitem_scalar "total_budget" 100000000%Q df else df in
  Ok df.

(** The global [df] after startup: [None] when [read_csv] or the
    normalisation raised.  [csv] is what [read_csv] did. *)
Definition load (csv : result DataFrame) : option DataFrame :=
  match (raw <- csv ;; normalize raw) with
  | Ok df => Some df
  | Raise _ => None
  end.

(** ** What the handlers return *)

Record overview : Type := mkOverview {
  total_wards : nat;
  high_stress_count : nat;
  medium_stress_count : nat;
  low_stress_count : nat;
  avg_pm25 : pyfloat;
  avg_esi : pyfloat
}.

(** The traces of a plotly figure.  [marker.colors] of a pie is
    positional: its i-th colour paints the i-th label. *)
Inductive trace : Type :=
| Pie (labels : list cell) (values : list nat) (colors : list string)
      (textinfo : string)
| Scatter (x y : list cell) (mode name : string) (size : nat)
          (color : string) (opacity : Q) (text : list cell)
          (hovertemplate : string).

Record layout : Type := mkLayout {
  title : string;
  xaxis_title : option string;
  yaxis_title : option string;
  height : nat
}.

(** [layout = None] is the empty layout [{}]. *)
Record figure : Type := mkFigure {
  data : list trace;
  fig_layout : option layout
}.

Record popup : Type := mkPopup {
  popup_color : string;
  popup_ward : cell;
  popup_lat : Q;
  popup_lon : Q;
  popup_pm25 : Q;
  popup_heat : Q;
  popup_green_pct : Q;
  popup_pop_density : Q;
  popup_esi : Q;
  popup_stress : cell;
  popup_population : Z
}.

Record marker : Type := mkMarker {
  location : Q * Q;
  marker_radius : Q;
  marker_popup : popup;
  marker_color : string;
  fill_color : string;
  fill_opacity : Q;
  weight : nat;
  tooltip : cell * Q * cell
}.

Inductive html : Type :=
| ErrorDiv (msg : option exn)
| MapHtml (center : Q * Q) (zoom_start : nat) (markers : list marker)
          (legend : list (string * string)).

(** The values an f-string interpolates. *)
Inductive arg : Type :=
| ANat (n : nat)
| ANum (q : Q)
| AFloat (f : pyfloat)
| ACell (c : cell).

Record card : Type := mkCard {
  card_type : string;
  card_title : string;
  card_text : string * list arg;
  card_action : string * list arg
}.

Inductive payload : Type :=
| OverviewJson (o : overview)
| ErrorJson (e : exn)
| FigureJson (f : figure)
| HtmlBody (h : html)
| RecordsJson (rows : list row)
| InsightsJson (cards : list card)
| FaqJson (faq : list (string * string)).

(** A Flask response: the body and the HTTP status. *)
Definition response : Type := payload * nat.

(** ** Helpers shared by the handlers *)

(** [df[df['stress_zone'] == zone]] *)
Definition zone_rows (zone : string) (df : DataFrame) : result DataFrame :=
  z <- getitem "stress_zone" df ;;
  Ok (filter_rows (eq_str z zone) df).

(** The dict [{'High Stress': ..., 'Medium Stress': ..., 'Low Stress': ...}]
    of [pm25_green] and [get_map]. *)
Definition colors_map (zone : string) : option string :=
  if String.eqb zone "High Stress" then Some "#e74c3c"
  else if String.eqb zone "Medium Stress" then Some "#f39c12"
  else if String.eqb zone "Low Stress" then Some "#2ecc71"
  else None.

(** [colors.get(stress, '#999')] *)
Definition colors_get (stress : cell) : string :=
  match stress with
  | CStr s => match colors_map s with Some c => c | None => "#999" end
  | CNum _ => "#999"
  end.

(** A place where Python needs a number: a string raises [e] there. *)
Definition num_or (e : exn) (c : cell) : result Q :=
  match c with
  | CNum q => Ok q
  | CStr _ => Raise e
  end.

Definition pf_map (f : Q -> Q) (x : pyfloat) : pyfloat :=
  match x with
  | Fin q => Fin (f q)
  | NaN => NaN
  end.

(** [x > 0], false on NaN. *)
Definition pf_pos (x : pyfloat) : bool :=
  match x with
  | Fin q => Qltb 0%Q q
  | NaN => false
  end.

(** ** GET /api/overview (lines 61-93) *)

Definition overview_body (df : DataFrame) : result overview :=
  h <- zone_rows "High Stress" df ;;
  let high := len h in
  m <- zone_rows "Medium Stress" df ;;
  let medium := len m in
  l <- zone_rows "Low Stress" df ;;
  let low := len l in
  pm <- getitem "pm25" df ;;
  mean_pm <- mean pm ;;
  es <- getitem "esi" df ;;
  mean_esi <- mean es ;;
  Ok (mkOverview (len df) high medium low
        (pf_map (fun v => round v 1) mean_pm)
        (pf_map (fun v => round v 3) mean_esi)).

Definition get_overview (df : option DataFrame) : response :=
  match df with
  | None => (OverviewJson (mkOverview 0 0 0 0 (Fin 0) (Fin 0)), 200)
  | Some df =>
      match overview_body df with
      | Ok o => (OverviewJson o, 200)
      | Raise e => (ErrorJson e, 500)
      end
  end.

(** ** GET /api/pm25-green (lines 120-154) *)

Definition zone_trace (df : DataFrame) (zone : string)
  : result (list trace) :=
  zone_data <- zone_rows zone df ;;
  if Nat.ltb 0 (len zone_data) then
    g <- getitem "green_cover" zone_data ;;
    pm <- getitem "pm25" zone_data ;;
    c <- match colors_map zone with
         | Some c => Ok c
         | None => Raise (KeyError zone)
         end ;;
    w <- getitem "ward" zone_data ;;
    Ok [Scatter (cells (mul_scalar g 100)) (cells pm) "markers" zone 10 c
          (7 # 10)%Q (cells w)
          "<b>%{text}</b><br>Green: %{x:.1f}%<br>PM2.5: %{y:.1f}<extra></extra>"]
  else Ok [].

Definition pm25_green_body (df : DataFrame) : result figure :=
  traces <- for_each (zone_trace df)
              ["Low Stress"; "Medium Stress"; "High Stress"] ;;
  Ok (mkFigure (List.concat traces)
        (Some (mkLayout "PM2.5 vs Green Cover" (Some "Green Cover (%)")
                 (Some "PM2.5 (µg/m³)") 450))).

Definition pm25_green (df : option DataFrame) : response :=
  match df with
  | None => (FigureJson (mkFigure [] None), 200)
  | Some df =>
      match pm25_green_body df with
      | Ok f => (FigureJson f, 200)
      | Raise e => (ErrorJson e, 500)
      end
  end.

(** ** GET /api/map (lines 160-309) *)

(** [max(8, min(25, 5 + (row['esi'] * 20)))] *)
Definition radius (esi : Q) : Q := max 8%Q (min 25%Q (5 + esi * 20)%Q).

Definition marker_of_row (r : row) : result marker :=
  stress <- row_getitem "stress_zone" r ;;
  let color := colors_get stress in
  e <- row_getitem "esi" r ;;
  esi <- num_or TypeError e ;;
  let radius := radius esi in
  let population := row_get "population" (CNum 50000%Q) r in
  let total_budget := row_get "total_budget" (CNum 100000000%Q) r in
  ward <- row_getitem "ward" r ;;
  lat <- (c <- row_getitem "lat" r ;; num_or ValueError c) ;;
  lon <- (c <- row_getitem "lon" r ;; num_or ValueError c) ;;
  pm <- (c <- row_getitem "pm25" r ;; num_or ValueError c) ;;
  heat <- (c <- row_getitem "heat" r ;; num_or ValueError c) ;;
  green <- (c <- row_getitem "green_cover" r ;; num_or ValueError c) ;;
  dens <- (c <- row_getitem "pop_density" r ;; num_or ValueError c) ;;
  pop <- num_or ValueError population ;;
  let popup := mkPopup color ward lat lon pm heat (green * 100)%Q dens esi
                 stress (int pop) in
  Ok (mkMarker (lat, lon) radius popup color color (7 # 10)%Q 2
        (ward, esi, stress)).

Definition legend : list (string * string) :=
  [("#e74c3c", "High Stress - Immediate Intervention (ESI > 0.65)");
   ("#f39c12", "Medium Stress - Preventive Measures (ESI 0.45-0.65)");
   ("#2ecc71", "Low Stress - Maintenance Only (ESI < 0.45)")].

Definition map_body (df : DataFrame) : result html :=
  ms <- for_each marker_of_row (iterrows df) ;;
  Ok (MapHtml ((1852 # 100)%Q, (7385 # 100)%Q) 11 ms legend).

Definition get_map (df : option DataFrame) : response :=
  match df with
  | None => (HtmlBody (ErrorDiv None), 200)
  | Some df =>
      match map_body df with
      | Ok h => (HtmlBody h, 200)
      | Raise e => (HtmlBody (ErrorDiv (Some e)), 200)
      end
  end.

(** ** GET /api/insights (lines 325-391) *)

Definition insights_body (df : DataFrame) : result (list card) :=
  h <- zone_rows "High Stress" df ;;
  let critical := len h in
  let total := len df in
  pct <- (if Nat.eqb total 0 then Raise ZeroDivisionError
          else Ok (inject_Z (Z.of_nat critical) / inject_Z (Z.of_nat total)
                   * 100)%Q) ;;
  let c1 := mkCard "critical" "Critical Zones"
              ("{} wards ({:.0f}%) need urgent intervention",
               [ANat critical; ANum pct])
              ("High ESI > 0.65", []) in
  pm <- getitem "pm25" df ;;
  worst_idx <- idxmax pm ;;
  let worst_ward := row_at df worst_idx in
  pm <- getitem "pm25" df ;;
  avg_pm25 <- mean pm ;;
  pct_above <- match avg_pm25 with
               | Fin avg =>
                   if Qltb 0%Q avg then
                     w <- row_getitem "pm25" worst_ward ;;
                     w <- num_or TypeError w ;;
                     Ok ((w / avg - 1) * 100)%Q
                   else Ok 0%Q
               | NaN => Ok 0%Q
               end ;;
  name <- row_getitem "ward" worst_ward ;;
  w <- row_getitem "pm25" worst_ward ;;
  w <- num_or ValueError w ;;
  let c2 := mkCard "pollution" "Pollution Hotspot"
              ("{}: {:.1f} µg/m³", [ACell name; ANum w])
              ("{:.0f}% above avg", [ANum pct_above]) in
  g <- getitem "green_cover" df ;;
  avg_green <- mean g ;;
  let target := (25 # 100)%Q in
  let gap := pf_map (fun a => ((target - a) * 100)%Q) avg_green in
  let c3 := mkCard "green" "Green Cover Gap"
              ("Current: {:.1f}% | Target: 25%",
               [AFloat (pf_map (fun a => (a * 100)%Q) avg_green)])
              ("Need +{:.1f}%", [AFloat gap]) in
  critical_pop <- (if has_col "population" df
                   then (h <- zone_rows "High Stress" df ;;
                         p <- getitem "population" h ;; Ok (sum p))
                   else Ok (CNum 0%Q)) ;;
  pop_m <- (v <- num_or TypeError critical_pop ;; Ok (v / 1000000)%Q) ;;
  let c4 := mkCard "population" "Population at Risk"
              ("{:.1f}M people in critical zones", [ANum pop_m])
              ("Urgent action", []) in
  high_budget <- (if has_col "total_budget" df
                  then (h <- zone_rows "High Stress" df ;;
                        b <- getitem "total_budget" h ;; Ok (sum b))
                  else Ok (CNum 0%Q)) ;;
  total_budget <- (if has_col "total_budget" df
                   then (b <- getitem "total_budget" df ;; Ok (sum b))
                   else Ok (CNum 1%Q)) ;;
  tb <- num_or TypeError total_budget ;;
  pct_budget <- (if Qltb 0%Q tb
                 then (hb <- num_or TypeError high_budget ;;
                       Ok (hb / tb * 100)%Q)
                 else Ok 0%Q) ;;
  cr <- (hb <- num_or TypeError high_budget ;; Ok (hb / 10000000)%Q) ;;
  let c5 := mkCard "budget" "Budget Strategy"
              ("₹{:.1f}Cr to critical zones", [ANum cr])
              ("{:.0f}% of total", [ANum pct_budget]) in
  Ok [c1; c2; c3; c4; c5].

Definition get_insights (df : option DataFrame) : response :=
  match df with
  | None => (InsightsJson [], 200)
  | Some df =>
      match insights_body df with
      | Ok cards => (InsightsJson cards, 200)
      | Raise _ => (InsightsJson [], 200)
      end
  end.

(** ** GET /api/faq (lines 393-418) *)

Definition dq : string := String (ascii_of_nat 34) EmptyString.
Definition nl : string := String (ascii_of_nat 10) EmptyString.

Definition faq : list (string * string) :=
  [("What does " ++ dq ++ "High Stress" ++ dq ++ " mean?",
    "High Stress wards have ESI > 0.65, indicating environmental challenges requiring immediate intervention.");
   ("How is ESI calculated?",
    "Environmental Stress Index = 40% PM2.5 + 20% Heat + 25% Density + 15% Green Deficit");
   ("Which wards need priority?",
    "High Stress wards with high population density should get priority.");
   ("How can ESI be reduced?",
    "1) Plant trees (green cover) → 25-30% reduction" ++ nl
    ++ "2) Reduce emissions → 15-20% reduction" ++ nl
    ++ "3) Improve monitoring");
   ("What is PM2.5?",
    "Particulate matter < 2.5µm. WHO safe limit: 15 µg/m³. High PM2.5 causes respiratory problems.")].

Definition get_faq : response := (FaqJson faq, 200).

(** ** The handlers that sort *)

Section Handlers.

Variable argsort : list cell -> list nat.

(** *** GET /api/stress-distribution (lines 95-118) *)

Definition stress_distribution_body (df : DataFrame) : result figure :=
  z <- getitem "stress_zone" df ;;
  let stress_counts := value_counts argsort z in
  Ok (mkFigure
        [Pie (map fst stress_counts) (map snd stress_counts)
           ["#e74c3c"; "#f39c12"; "#2ecc71"] "label+percent+value"]
        (Some (mkLayout "Stress Zone Distribution" None None 450))).

Definition stress_distribution (df : option DataFrame) : response :=
  match df with
  | None => (FigureJson (mkFigure [] None), 200)
  | Some df =>
      match stress_distribution_body df with
      | Ok f => (FigureJson f, 200)
      | Raise e => (ErrorJson e, 500)
      end
  end.

(** *** GET /api/wards (lines 311-323) *)

Definition ward_columns : list string :=
  ["ward"; "pm25"; "heat"; "pop_density"; "green_cover"; "esi"; "stress_zone"].

Definition wards_body (df : DataFrame) : result (list row) :=
  data <- select ward_columns df ;;
  data <- sort_values_desc argsort "esi" data ;;
  Ok (to_dict_records data).

Definition get_wards (df : option DataFrame) : response :=
  match df with
  | None => (RecordsJson [], 200)
  | Some df =>
      match wards_body df with
      | Ok rows => (RecordsJson rows, 200)
      | Raise _ => (RecordsJson [], 200)
      end
  end.

(** *** The query endpoints *)

Inductive endpoint : Type :=
| ApiOverview
| ApiStressDistribution
| ApiPm25Green
| ApiMap
| ApiWards
| ApiInsights
| ApiFaq.

Definition handle (e : endpoint) (df : option DataFrame) : response :=
  match e with
  | ApiOverview => get_overview df
  | ApiStressDistribution => stress_distribution df
  | ApiPm25Green => pm25_green df
  | ApiMap => get_map df
  | ApiWards => get_wards df
  | ApiInsights => get_insights df
  | ApiFaq => get_faq
  end.

End Handlers.

(** ** Notions the statements below use *)

(** [clamp(x, lo, hi)] *)
Definition clamp (x lo hi : Q) : Q :=
  if Qltb x lo then lo else if Qltb hi x then hi else x.

(** The three zone labels the handlers name. *)
Definition zones : list string :=
  ["Low Stress"; "Medium Stress"; "High Stress"].

Definition known_zone (c : cell) : bool :=
  match c with
  | CStr s =>
      String.eqb s "High Stress" || String.eqb s "Medium Stress"
      || String.eqb s "Low Stress"
  | CNum _ => false
  end.

(** The titles of the five insight cards, in order. *)
Definition insight_titles : list string :=
  ["Critical Zones"; "Pollution Hotspot"; "Green Cover Gap";
   "Population at Risk"; "Budget Strategy"].

(** The colour a pie paints a label with: the one at the label's place. *)
Fixpoint position (c : cell) (l : list cell) : option nat :=
  match l with
  | [] => None
  | x :: t =>
      if cell_eqb c x then Some 0
      else match position c t with Some n => Some (S n) | None => None end
  end.

Definition pie_color (t : trace) (label : cell) : option string :=
  match t with
  | Pie labels _ colors _ =>
      match position label labels with
      | Some n => nth_error colors n
      | None => None
      end
  | Scatter _ _ _ _ _ _ _ _ _ => None
  end.

(** Rows with equal keys come out in the order they went in. *)
Definition ties_keep_order (ks : list cell) (idx : list nat) : Prop :=
  forall p q,
    p < q < List.length idx ->
    cell_eqb (nth (nth p idx 0) ks (CNum 0)) (nth (nth q idx 0) ks (CNum 0))
    = true ->
    nth p idx 0 < nth q idx 0.

(** The invariant of the stable insertion: keys do not increase, and of
    two equal keys the one met first in the source comes first. *)
Definition tie_ordered (a b : nat * cell) : Prop :=
  cell_leb (snd b) (snd a) = true /\
  (cell_leb (snd a) (snd b) = true -> fst a < fst b).

Definition is_cnum (c : cell) : Prop :=
  match c with CNum _ => True | CStr _ => False end.

(** The positions of the rows [pm25_green] plots: those of each of the
    three labels. *)
Definition plotted (z : column) (n : nat) : list nat :=
  flat_map (fun zone => selected (eq_str z zone) n) zones.

Definition is_num (c : option column) : bool :=
  match c with Some (NumCol _) => true | _ => false end.

Definition num_or_absent (c : option column) : bool :=
  match c with Some (StrCol _) => false | _ => true end.

(** What [get_insights] needs of a frame to raise nothing. *)
Definition insights_ready (df : DataFrame) : bool :=
  Nat.ltb 0 (nrows df)
  && has_col "stress_zone" df
  && has_col "ward" df
  && is_num (lookup "pm25" (cols df))
  && is_num (lookup "green_cover" (cols df))
  && num_or_absent (lookup "population" (cols df))
  && num_or_absent (lookup "total_budget" (cols df)).

(** What a trace of [pm25_green] is: the rows of one of the three labels,
    each with its green cover in percent, its PM2.5 and its ward. *)
Definition trace_of_zone (df : DataFrame) (z : column) (zone : string)
  (t : trace) : Prop :=
  exists g pm w c,
    getitem "green_cover" df = Ok g /\
    getitem "pm25" df = Ok pm /\
    getitem "ward" df = Ok w /\
    colors_map zone = Some c /\
    t = Scatter
          (map (cell_at (mul_scalar g 100))
               (selected (eq_str z zone) (nrows df)))
          (map (cell_at pm) (selected (eq_str z zone) (nrows df)))
          "markers" zone 10 c (7 # 10)%Q
          (map (cell_at w) (selected (eq_str z zone) (nrows df)))
          "<b>%{text}</b><br>Green: %{x:.1f}%<br>PM2.5: %{y:.1f}<extra></extra>".

(** The handlers whose [except] answers with status 500. *)
Definition answers_500 (e : endpoint) : bool :=
  match e with
  | ApiOverview | ApiStressDistribution | ApiPm25Green => true
  | ApiMap | ApiWards | ApiInsights | ApiFaq => false
  end.

(** The steps of [normalize], which raise nothing: the aliasing reads
    only a column it has just found. *)
Definition alias (src dst : string) (df : DataFrame) : DataFrame :=
  match lookup src (cols df) with
  | Some c => setitem dst c df
  | None => df
  end.

Definition default_col (k : string) (v : Q) (df : DataFrame) : DataFrame :=
  if has_col k df then df else setitem_scalar k v df.

(** ** Notions the further properties use *)

(** The frame the loader leaves for a file that was read. *)
Definition normalized (raw : DataFrame) : DataFrame :=
  default_col "total_budget" 100000000%Q
    (default_col "population" 50000%Q
       (alias "longitude" "lon" (alias "latitude" "lat" raw))).

(** The columns the loader may write. *)
Definition loader_writes (k : string) : bool :=
  String.eqb k "lat" || String.eqb k "lon" || String.eqb k "population"
  || String.eqb k "total_budget".

(** A column whose [mean()] raises nothing: numeric, or without rows. *)
Definition mean_defined (c : option column) : bool :=
  match c with
  | Some (NumCol _) | Some (StrCol []) => true
  | Some (StrCol (_ :: _)) | None => false
  end.

(** What [get_overview] needs of a frame to raise nothing. *)
Definition overview_ready (df : DataFrame) : bool :=
  has_col "stress_zone" df
  && mean_defined (lookup "pm25" (cols df))
  && mean_defined (lookup "esi" (cols df)).

(** The arithmetic mean of a list of numbers. *)
Definition Qmean (l : list Q) : Q :=
  (Qsum l / inject_Z (Z.of_nat (List.length l)))%Q.

(** How many cells of a list equal a given one. *)
Definition occurrences (c : cell) (l : list cell) : nat :=
  List.length (filter (fun x => cell_eqb c x) l).

(** The count a table of counts holds for a value: that of the first
    entry with an equal label, 0 without one. *)
Fixpoint count_of (c : cell) (acc : list (cell * nat)) : nat :=
  match acc with
  | [] => 0
  | (y, n) :: t => if cell_eqb c y then n else count_of c t
  end.

(** No label of a table of counts equals an earlier one. *)
Fixpoint labels_distinct (acc : list (cell * nat)) : Prop :=
  match acc with
  | [] => True
  | p :: t =>
      Forall (fun q => cell_eqb (fst q) (fst p) = false) t /\ labels_distinct t
  end.

(** The name of a scatter trace. *)
Definition trace_name (t : trace) : option string :=
  match t with
  | Scatter _ _ _ name _ _ _ _ _ => Some name
  | Pie _ _ _ _ => None
  end.

(** The lengths of the three data arrays of a scatter trace. *)
Definition trace_lengths (t : trace) : nat * nat * nat :=
  match t with
  | Scatter x y _ _ _ _ _ text _ =>
      (List.length x, List.length y, List.length text)
  | Pie _ _ _ _ => (0, 0, 0)
  end.

(** The number of rows of a frame of [n] rows that carry a label. *)
Definition zone_size (z : column) (n : nat) (zone : string) : nat :=
  List.length (selected (eq_str z zone) n).

(** A file with nothing but a [stress_zone] column, one row of it with a
    label of the three. *)
Definition zones_only : DataFrame :=
  mkFrame 2 [("stress_zone", StrCol ["High Stress"; "Critical"])].

(** A file with nothing but a [stress_zone] column and no label of the
    three. *)
Definition unknown_only : DataFrame :=
  mkFrame 1 [("stress_zone", StrCol ["Critical"])].

(** The first of a list of column names that the frame does not have. *)
Definition first_missing (ks : list string) (df : DataFrame) : option string :=
  find (fun k => negb (has_col k df)) ks.

(** The columns [get_map] reads with [row[...]]. *)
Definition map_columns : list string :=
  ["stress_zone"; "esi"; "ward"; "lat"; "lon"; "pm25"; "heat";
   "green_cover"; "pop_density"].

(** Two wards with different [esi] and the seven columns of the table. *)
Definition two_wards : DataFrame :=
  mkFrame 2
    [("ward", StrCol ["A"; "B"]);
     ("pm25", NumCol [50; 10]%Q);
     ("heat", NumCol [30; 31]%Q);
     ("pop_density", NumCol [100; 200]%Q);
     ("green_cover", NumCol [(1 # 10); (2 # 10)]%Q);
     ("esi", NumCol [(3 # 10); (7 # 10)]%Q);
     ("stress_zone", StrCol ["Low Stress"; "High Stress"])].

(** The columns [get_insights] reads whatever the data. *)
Definition insight_columns : list string :=
  ["stress_zone"; "pm25"; "ward"; "green_cover"].

(** ** The default sort of [sort_values]

    [data.sort_values('esi', ascending=False)] names no [kind], so pandas
    sorts with [kind='quicksort']: its [nargsort] reverses the keys, calls
    numpy's [argsort(kind='quicksort')] on them and reverses the result.
    The kernel below is numpy's scalar [aquicksort_] (npysort,
    quicksort.cpp): median-of-three partitioning while more than 16
    elements are left, insertion sort below that.  Its switch to heapsort
    when the depth limit is used up is not modelled: the kernel answers
    [None] there.  Builds of numpy that sort with vector instructions
    order ties differently again; none of these kernels is stable. *)

(** [Tag::less] *)
Definition cell_ltb (a b : cell) : bool := negb (cell_leb b a).

Fixpoint upd (a : list nat) (i x : nat) : list nat :=
  match a, i with
  | [], _ => []
  | _ :: t, O => x :: t
  | y :: t, S i' => y :: upd t i' x
  end.

(** [INTP_SWAP(a[i], a[j])] *)
Definition swap (a : list nat) (i j : nat) : list nat :=
  upd (upd a i (nth j a 0)) j (nth i a 0).

(** [v[a[p]]] *)
Definition key_at (v : list cell) (a : list nat) (p : nat) : cell :=
  nth (nth p a 0) v (CNum 0).

(** [do ++pi; while (less(v[*pi], vp))] *)
Fixpoint scan_up (fuel : nat) (v : list cell) (a : list nat) (vp : cell)
  (pi : nat) : nat :=
  match fuel with
  | O => pi
  | S f =>
      if cell_ltb (key_at v a (S pi)) vp then scan_up f v a vp (S pi)
      else S pi
  end.

(** [do --pj; while (less(vp, v[*pj]))] *)
Fixpoint scan_down (fuel : nat) (v : list cell) (a : list nat) (vp : cell)
  (pj : nat) : nat :=
  match fuel with
  | O => pj
  | S f =>
      if cell_ltb vp (key_at v a (pj - 1)) then scan_down f v a vp (pj - 1)
      else pj - 1
  end.

(** The [for (;;)] loop of a partition. *)
Fixpoint hoare (fuel : nat) (v : list cell) (a : list nat) (vp : cell)
  (pi pj : nat) : list nat * nat :=
  match fuel with
  | O => (a, pi)
  | S f =>
      let pi' := scan_up (List.length a) v a vp pi in
      let pj' := scan_down (List.length a) v a vp pj in
      if Nat.leb pj' pi' then (a, pi')
      else hoare f v (swap a pi' pj') vp pi' pj'
  end.

(** One partition of [a[pl..pr]]: the array afterwards and the place of
    the pivot. *)
Definition partition (v : list cell) (a : list nat) (pl pr : nat)
  : list nat * nat :=
  let pm := pl + Nat.div2 (pr - pl) in
  let a := if cell_ltb (key_at v a pm) (key_at v a pl) then swap a pm pl
           else a in
  let a := if cell_ltb (key_at v a pr) (key_at v a pm) then swap a pr pm
           else a in
  let a := if cell_ltb (key_at v a pm) (key_at v a pl) then swap a pm pl
           else a in
  let vp := key_at v a pm in
  let a := swap a pm (pr - 1) in
  let (a, pi) := hoare (List.length a) v a vp pl (pr - 1) in
  (swap a pi (pr - 1), pi).

(** [while (pj > pl && less(vp, v[*pk])) *pj-- = *pk--;] *)
Fixpoint shift_right (fuel : nat) (v : list cell) (a : list nat) (vp : cell)
  (pl pj : nat) : list nat * nat :=
  match fuel with
  | O => (a, pj)
  | S f =>
      if Nat.ltb pl pj && cell_ltb vp (key_at v a (pj - 1))
      then shift_right f v (upd a pj (nth (pj - 1) a 0)) vp pl (pj - 1)
      else (a, pj)
  end.

(** The insertion sort of [a[pl..pr]]: [count] elements from [pi] on. *)
Fixpoint insertion_from (count : nat) (v : list cell) (a : list nat)
  (pl pi : nat) : list nat :=
  match count with
  | O => a
  | S c =>
      let vi := nth pi a 0 in
      let vp := nth vi v (CNum 0) in
      let (a', pj) := shift_right pi v a vp pl pi in
      insertion_from c v (upd a' pj vi) pl (S pi)
  end.

Definition SMALL_QUICKSORT : nat := 16.

(** The outer loop with its stack of postponed partitions.  [inner] tells
    that control is inside the partitioning [while], where the depth is
    not tested. *)
Fixpoint aquicksort_loop (fuel : nat) (v : list cell) (a : list nat)
  (pl pr : nat) (cdepth : Z) (stack : list (nat * nat * Z)) (inner : bool)
  : option (list nat) :=
  match fuel with
  | O => None
  | S f =>
      if negb inner && Z.ltb cdepth 0 then None
      else if Nat.ltb SMALL_QUICKSORT (pr - pl) then
        let (a', pi) := partition v a pl pr in
        let cdepth' := (cdepth - 1)%Z in
        if Nat.ltb (pi - pl) (pr - pi)
        then aquicksort_loop f v a' pl (pi - 1) cdepth'
               ((S pi, pr, cdepth') :: stack) true
        else aquicksort_loop f v a' (S pi) pr cdepth'
               ((pl, pi - 1, cdepth') :: stack) true
      else
        let a' := insertion_from (pr - pl) v a pl (S pl) in
        match stack with
        | [] => Some a'
        | (pl', pr', d) :: st => aquicksort_loop f v a' pl' pr' d st false
        end
  end.

(** [v.argsort(kind='quicksort')]: the kernel run on the indices
    [0 .. n-1], with depth limit [2 * msb(n)]. *)
Definition aquicksort (v : list cell) : option (list nat) :=
  let n := List.length v in
  match n with
  | O => Some []
  | S _ =>
      aquicksort_loop (4 * n + 4) v (seq 0 n) 0 (n - 1)
        (2 * Z.log2 (Z.of_nat n))%Z [] false
  end.

(** [nargsort(items, kind='quicksort', ascending=False)] on keys without
    missing values. *)
Definition nargsort_desc (ks : list cell) : option (list nat) :=
  let n := List.length ks in
  match aquicksort (rev ks) with
  | Some a => Some (rev (map (fun p => n - 1 - p) a))
  | None => None
  end.

(** The indexer [sort_values(ascending=False)] uses by default; where
    the kernel is not modelled the rows are left in place. *)
Definition quicksort_indexer (ks : list cell) : list nat :=
  match nargsort_desc ks with
  | Some idx => idx
  | None => seq 0 (List.length ks)
  end.

(** ** Sample data *)

(** Three wards; A and B have the same [esi]. *)
Definition three_wards : DataFrame :=
  mkFrame 3
    [("ward", StrCol ["A"; "B"; "C"]);
     ("lat", NumCol [(1852 # 100); (1853 # 100); (1854 # 100)]%Q);
     ("lon", NumCol [(7385 # 100); (7386 # 100); (7387 # 100)]%Q);
     ("pm25", NumCol [50; 10; 30]%Q);
     ("heat", NumCol [30; 31; 32]%Q);
     ("green_cover", NumCol [(1 # 10); (2 # 10); (3 # 10)]%Q);
     ("pop_density", NumCol [100; 200; 300]%Q);
     ("esi", NumCol [(1 # 2); (1 # 2); (9 # 10)]%Q);
     ("stress_zone", StrCol ["Low Stress"; "High Stress"; "High Stress"]);
     ("population", NumCol [50000; 50000; 50000]%Q);
     ("total_budget", NumCol [100000000; 100000000; 100000000]%Q)].

(** Two wards, one of them with a label outside the three. *)
Definition with_unknown_zone : DataFrame :=
  mkFrame 2
    [("ward", StrCol ["A"; "B"]);
     ("pm25", NumCol [50; 10]%Q);
     ("green_cover", NumCol [(1 # 10); (2 # 10)]%Q);
     ("esi", NumCol [(7 # 10); (3 # 10)]%Q);
     ("stress_zone", StrCol ["High Stress"; "Critical"]);
     ("population", NumCol [50000; 50000]%Q);
     ("total_budget", NumCol [100000000; 100000000]%Q)].

(** A file without the [stress_zone] column. *)
Definition without_zone : DataFrame :=
  mkFrame 1
    [("ward", StrCol ["A"]); ("pm25", NumCol [50]%Q);
     ("esi", NumCol [(7 # 10)]%Q); ("population", NumCol [50000]%Q);
     ("total_budget", NumCol [100000000]%Q)].

(** A file with both a [latitude] and a [lat] column. *)
Definition both_coords : DataFrame :=
  mkFrame 1
    [("ward", StrCol ["A"]); ("latitude", NumCol [(1852 # 100)]%Q);
     ("lat", NumCol [0]%Q)].

(** A file with a header and no rows, once loaded. *)
Definition no_rows : DataFrame :=
  mkFrame 0
    [("ward", StrCol []); ("pm25", StrCol []); ("green_cover", StrCol []);
     ("esi", StrCol []); ("stress_zone", StrCol []);
     ("population", NumCol []); ("total_budget", NumCol [])].



(** * Properties *)

(** ** Columns of a frame *)

Lemma lookup_set_col_same : forall k c l, lookup k (set_col k c l) = Some c.
Proof.
  induction l as [|[k' c'] t IH]; simpl.
  - now rewrite String.eqb_refl.
  - destruct (String.eqb k k') eqn:E; simpl; rewrite E; auto.
Qed.

Lemma lookup_set_col_other : forall k k' c l,
  String.eqb k' k = false -> lookup k' (set_col k c l) = lookup k' l.
Proof.
  intros k k' c l Hne.
  induction l as [|[k0 c0] t IH]; simpl.
  - now rewrite Hne.
  - destruct (String.eqb k k0) eqn:E; simpl.
    + apply String.eqb_eq in E. subst k0. now rewrite Hne.
    + now rewrite IH.
Qed.

Lemma has_col_setitem_other : forall k k' c df,
  String.eqb k' k = false -> has_col k' (setitem k c df) = has_col k' df.
Proof.
  intros. unfold has_col, setitem. simpl. now rewrite lookup_set_col_other.
Qed.

Lemma getitem_setitem_other : forall k k' c df,
  String.eqb k' k = false -> getitem k' (setitem k c df) = getitem k' df.
Proof.
  intros. unfold getitem, setitem. simpl. now rewrite lookup_set_col_other.
Qed.

Lemma getitem_setitem_same : forall k c df, getitem k (setitem k c df) = Ok c.
Proof.
  intros. unfold getitem, setitem. simpl. now rewrite lookup_set_col_same.
Qed.

Lemma alias_step : forall src dst df,
  (if has_col src df
   then (c <- getitem src df ;; Ok (setitem dst c df))
   else Ok df) = Ok (alias src dst df).
Proof.
  intros. unfold has_col, getitem, alias.
  destruct (lookup src (cols df)); reflexivity.
Qed.

Lemma normalize_steps : forall raw,
  normalize raw =
  Ok (default_col "total_budget" 100000000%Q
        (default_col "population" 50000%Q
           (alias "longitude" "lon" (alias "latitude" "lat" raw)))).
Proof.
  intros raw. unfold normalize.
  rewrite alias_step. simpl bind. rewrite alias_step. simpl bind.
  unfold default_col.
  destruct (has_col "population" _); simpl;
    destruct (has_col "total_budget" _); reflexivity.
Qed.

Lemma load_ok : forall raw,
  load (Ok raw) =
  Some (default_col "total_budget" 100000000%Q
          (default_col "population" 50000%Q
             (alias "longitude" "lon" (alias "latitude" "lat" raw)))).
Proof.
  intros. unfold load. simpl bind. now rewrite normalize_steps.
Qed.

Lemma nrows_alias : forall src dst df, nrows (alias src dst df) = nrows df.
Proof.
  intros. unfold alias. destruct (lookup src (cols df)); reflexivity.
Qed.

Lemma nrows_default_col : forall k v df, nrows (default_col k v df) = nrows df.
Proof.
  intros. unfold default_col. destruct (has_col k df); reflexivity.
Qed.

Lemma lookup_alias_other : forall src dst k df,
  String.eqb k dst = false ->
  lookup k (cols (alias src dst df)) = lookup k (cols df).
Proof.
  intros. unfold alias. destruct (lookup src (cols df)); simpl; auto.
  now apply lookup_set_col_other.
Qed.

Lemma lookup_default_col_other : forall k' k v df,
  String.eqb k k' = false ->
  lookup k (cols (default_col k' v df)) = lookup k (cols df).
Proof.
  intros. unfold default_col. destruct (has_col k' df); simpl; auto.
  now apply lookup_set_col_other.
Qed.

Lemma lookup_default_col_same : forall k v df,
  lookup k (cols (default_col k v df)) =
  match lookup k (cols df) with
  | Some c => Some c
  | None => Some (NumCol (repeat v (nrows df)))
  end.
Proof.
  intros. unfold default_col, has_col.
  destruct (lookup k (cols df)) eqn:E; simpl.
  - exact E.
  - apply lookup_set_col_same.
Qed.

(** ** The loader *)

(** C8.  Defaulting is decided per column.  Whatever file was read, the
    loader yields a frame of as many rows in which [population] is the
    source column, untouched, when the source has one, and the value
    50000 on every row when it has none; likewise [total_budget] with
    100000000. *)
Theorem column_defaulting_all_or_nothing : forall raw : DataFrame,
  exists df,
    load (Ok raw) = Some df /\
    nrows df = nrows raw /\
    getitem "population" df =
      (if has_col "population" raw then getitem "population" raw
       else Ok (NumCol (repeat 50000%Q (nrows raw)))) /\
    getitem "total_budget" df =
      (if has_col "total_budget" raw then getitem "total_budget" raw
       else Ok (NumCol (repeat 100000000%Q (nrows raw)))).
Proof.
  intros raw. eexists. split; [apply load_ok|].
  split; [now rewrite !nrows_default_col, !nrows_alias|].
  unfold getitem, has_col. split.
  - rewrite lookup_default_col_other by reflexivity.
    rewrite lookup_default_col_same.
    rewrite !lookup_alias_other by reflexivity.
    rewrite !nrows_alias.
    destruct (lookup "population" (cols raw)); reflexivity.
  - rewrite lookup_default_col_same.
    rewrite lookup_default_col_other by reflexivity.
    rewrite !lookup_alias_other by reflexivity.
    rewrite nrows_default_col, !nrows_alias.
    destruct (lookup "total_budget" (cols raw)); reflexivity.
Qed.

(** C7, as stated, fails: a [lat] column that exists is overwritten by
    [latitude]. *)
Lemma existing_lat_is_overwritten :
  has_col "lat" both_coords = true /\
  exists df,
    load (Ok both_coords) = Some df /\
    getitem "lat" both_coords = Ok (NumCol [0%Q]) /\
    getitem "lat" df = Ok (NumCol [(1852 # 100)%Q]) /\
    getitem "lat" df <> getitem "lat" both_coords.
Proof.
  split; [reflexivity|]. eexists. split; [reflexivity|].
  split; [reflexivity|]. split; [reflexivity|]. discriminate.
Qed.

(** C7, amended.  [lat] becomes a copy of [latitude] whenever the source
    has a [latitude] column, whether or not it has a [lat] column, and is
    the source's [lat] otherwise; likewise [lon] and [longitude].  The
    [latitude] and [longitude] columns stay as they were. *)
Theorem coordinates_aliased_whenever_present : forall raw : DataFrame,
  exists df,
    load (Ok raw) = Some df /\
    getitem "lat" df =
      (if has_col "latitude" raw then getitem "latitude" raw
       else getitem "lat" raw) /\
    getitem "lon" df =
      (if has_col "longitude" raw then getitem "longitude" raw
       else getitem "lon" raw) /\
    getitem "latitude" df = getitem "latitude" raw /\
    getitem "longitude" df = getitem "longitude" raw.
Proof.
  intros raw. eexists. split; [apply load_ok|].
  unfold getitem, has_col.
  rewrite !lookup_default_col_other by reflexivity.
  repeat split.
  - rewrite lookup_alias_other by reflexivity.
    unfold alias. destruct (lookup "latitude" (cols raw)); simpl; auto.
    now rewrite lookup_set_col_same.
  - unfold alias at 1.
    rewrite lookup_alias_other by reflexivity.
    destruct (lookup "longitude" (cols raw)) eqn:E; simpl.
    + now rewrite lookup_set_col_same.
    + now rewrite lookup_alias_other by reflexivity.
  - now rewrite !lookup_alias_other by reflexivity.
  - now rewrite !lookup_alias_other by reflexivity.
Qed.

(** ** Exceptions *)

Lemma bind_ok : forall (A B : Type) (c : result A) (k : A -> result B) b,
  bind c k = Ok b -> exists a, c = Ok a /\ k a = Ok b.
Proof.
  intros A B [a|e] k b H; simpl in H; [eauto | discriminate].
Qed.

Ltac bind_inv H :=
  let a := fresh "a" in
  let Ha := fresh "Ha" in
  apply bind_ok in H; destruct H as [a [Ha H]].

Tactic Notation "bind_inv_as" hyp(H) ident(a) ident(Ha) :=
  apply bind_ok in H; destruct H as [a [Ha H]].

Lemma for_each_ok : forall (A B : Type) (f : A -> result B) l ys,
  for_each f l = Ok ys -> Forall2 (fun x y => f x = Ok y) l ys.
Proof.
  induction l as [|x t IH]; simpl; intros ys H.
  - injection H as <-. constructor.
  - bind_inv H. bind_inv H. injection H as <-. constructor; auto.
Qed.

Lemma num_or_ok : forall e c q, num_or e c = Ok q -> c = CNum q.
Proof.
  intros e [q'|s] q H; simpl in H; [now injection H as -> | discriminate].
Qed.

(** ** The map *)

Lemma Qltb_true : forall a b, Qltb a b = true <-> (a < b)%Q.
Proof.
  intros a b. unfold Qltb. rewrite negb_true_iff.
  split; intros H.
  - apply Qnot_le_lt. intros Hle. apply Qle_bool_iff in Hle. congruence.
  - destruct (Qle_bool b a) eqn:E; auto.
    apply Qle_bool_iff in E. exfalso. revert E. now apply Qlt_not_le.
Qed.

Lemma Qltb_false : forall a b, Qltb a b = false <-> (b <= a)%Q.
Proof.
  intros a b. unfold Qltb. rewrite negb_false_iff. apply Qle_bool_iff.
Qed.

Lemma marker_of_row_radius : forall r m,
  marker_of_row r = Ok m ->
  exists esi,
    row_getitem "esi" r = Ok (CNum esi) /\ marker_radius m = radius esi.
Proof.
  intros r m H. unfold marker_of_row in H.
  bind_inv_as H stress Hs. bind_inv_as H e He. bind_inv_as H esi Hesi.
  apply num_or_ok in Hesi. subst e.
  repeat bind_inv H. injection H as <-.
  exists esi. split; [assumption | reflexivity].
Qed.

(** C9.  The radius of a marker is [clamp(5 + esi*20, 8, 25)] and lies
    between 8 and 25 for every [esi], inside [0,1] or not; and when the
    map is drawn, every row has a marker whose radius is the one computed
    from the row's [esi]. *)
Theorem marker_radius_is_clamped :
  (forall esi : Q,
     (radius esi == clamp (5 + esi * 20) 8 25)%Q /\
     (8 <= radius esi <= 25)%Q) /\
  (forall df center zoom ms lg,
     map_body df = Ok (MapHtml center zoom ms lg) ->
     Forall2
       (fun r m =>
          exists esi,
            row_getitem "esi" r = Ok (CNum esi) /\
            marker_radius m = radius esi)
       (iterrows df) ms).
Proof.
  split.
  - intros esi. unfold radius, clamp, max, min.
    set (v := (5 + esi * 20)%Q).
    destruct (Qltb v 25) eqn:E1; destruct (Qltb v 8) eqn:E2;
      destruct (Qltb 25 v) eqn:E3;
      try (destruct (Qltb 8 v) eqn:E4);
      try (destruct (Qltb 8 25) eqn:E5);
      repeat match goal with
        | H : Qltb _ _ = true |- _ => apply Qltb_true in H
        | H : Qltb _ _ = false |- _ => apply Qltb_false in H
        end;
      repeat split; try lra.
  - intros df center zoom ms lg H. unfold map_body in H.
    bind_inv H. injection H as _ _ <- _.
    apply for_each_ok in Ha.
    eapply Forall2_impl; [|exact Ha].
    intros r m Hm. now apply marker_of_row_radius.
Qed.

(** The map of the sample is drawn, with a marker per ward. *)
Lemma marker_radius_is_clamped_sample :
  exists ms,
    map_body three_wards = Ok (MapHtml ((1852 # 100)%Q, (7385 # 100)%Q) 11 ms legend) /\
    Forall2
      (fun r m =>
         exists esi,
           row_getitem "esi" r = Ok (CNum esi) /\
           marker_radius m = radius esi)
      (iterrows three_wards) ms /\
    List.length ms = 3.
Proof.
  eexists. split; [vm_compute; reflexivity|].
  split; [|reflexivity].
  apply (proj2 marker_radius_is_clamped three_wards
           ((1852 # 100)%Q, (7385 # 100)%Q) 11 _ legend).
  vm_compute. reflexivity.
Defined.

(** ** Sorting *)

Lemma cell_leb_total : forall x y, cell_leb x y = true \/ cell_leb y x = true.
Proof.
  intros [p|s] [q|t]; simpl; auto.
  - destruct (Qlt_le_dec q p) as [H|H].
    + right. apply Qle_bool_iff. now apply Qlt_le_weak.
    + left. now apply Qle_bool_iff.
  - apply String.leb_total.
Qed.

Section InsertionSort.

Variable before : cell -> cell -> bool.
Hypothesis before_true : forall x y, before x y = true -> cell_leb y x = true.
Hypothesis before_false : forall x y, before x y = false -> cell_leb x y = true.

Let above (a b : nat * cell) : Prop := cell_leb (snd b) (snd a) = true.

Lemma insert_desc_perm : forall x l,
  Permutation (insert_desc before x l) (x :: l).
Proof.
  induction l as [|y t IH]; simpl.
  - apply Permutation_refl.
  - destruct (before (snd x) (snd y)).
    + apply Permutation_refl.
    + eapply perm_trans; [apply perm_skip, IH | apply perm_swap].
Qed.

Lemma insert_desc_hd : forall x y l,
  above y x -> HdRel above y l -> HdRel above y (insert_desc before x l).
Proof.
  intros x y [|z t] Hyx Hhd; simpl.
  - now constructor.
  - destruct (before (snd x) (snd z)); constructor; auto.
    now inversion Hhd.
Qed.

Lemma insert_desc_sorted : forall x l,
  Sorted above l -> Sorted above (insert_desc before x l).
Proof.
  induction l as [|y t IH]; simpl; intros Hs.
  - repeat constructor.
  - inversion Hs as [|? ? Hst Hhd]; subst.
    destruct (before (snd x) (snd y)) eqn:E.
    + constructor; [assumption|]. constructor. now apply before_true.
    + constructor; [now apply IH|].
      apply insert_desc_hd; [|assumption]. now apply before_false.
Qed.

Lemma fold_insert_perm : forall ps,
  Permutation (fold_right (insert_desc before) [] ps) ps.
Proof.
  induction ps as [|x t IH]; simpl.
  - constructor.
  - eapply perm_trans; [apply insert_desc_perm | now apply perm_skip].
Qed.

Lemma fold_insert_sorted : forall ps,
  Sorted above (fold_right (insert_desc before) [] ps).
Proof.
  induction ps as [|x t IH]; simpl.
  - constructor.
  - now apply insert_desc_sorted.
Qed.

Lemma fst_combine_seq : forall (ks : list cell) s,
  map fst (combine (seq s (List.length ks)) ks) = seq s (List.length ks).
Proof.
  induction ks as [|k t IH]; intros s; simpl; [reflexivity|].
  now rewrite IH.
Qed.

Lemma in_combine_seq : forall (ks : list cell) s i k,
  In (i, k) (combine (seq s (List.length ks)) ks) ->
  s <= i /\ nth (i - s) ks (CNum 0) = k.
Proof.
  induction ks as [|k0 t IH]; intros s i k Hin; simpl in Hin; [contradiction|].
  destruct Hin as [Heq|Hin].
  - injection Heq as <- <-. split; [lia|]. now rewrite Nat.sub_diag.
  - apply IH in Hin. destruct Hin as [Hle Hnth]. split; [lia|].
    replace (i - s) with (S (i - S s)) by lia. exact Hnth.
Qed.

Lemma sorted_fst : forall (ks : list cell) (ps : list (nat * cell)),
  Forall (fun p => nth (fst p) ks (CNum 0) = snd p) ps ->
  Sorted above ps -> Sorted (desc_along ks) (map fst ps).
Proof.
  intros ks ps Hall Hs. induction Hs as [|a l Hs IH Hhd]; simpl.
  - constructor.
  - inversion Hall as [|? ? Ha Hl]; subst.
    constructor; [now apply IH|].
    destruct Hhd as [|b l' Hab]; simpl; constructor.
    inversion Hl as [|? ? Hb _]; subst.
    unfold desc_along, above in *. now rewrite Ha, Hb.
Qed.

Lemma argsort_by_spec : argsort_spec (argsort_by before).
Proof.
  intros ks. unfold argsort_by.
  set (ps := combine (seq 0 (List.length ks)) ks).
  split.
  - rewrite <- (fst_combine_seq ks 0).
    apply Permutation_map, fold_insert_perm.
  - apply sorted_fst; [|apply fold_insert_sorted].
    apply Forall_forall. intros [i k] Hin.
    apply (Permutation_in _ (fold_insert_perm ps)) in Hin.
    apply in_combine_seq in Hin. destruct Hin as [_ Hnth].
    simpl. now rewrite Nat.sub_0_r in Hnth.
Qed.

End InsertionSort.

Lemma argsort_stable_spec : argsort_spec argsort_stable.
Proof.
  apply argsort_by_spec.
  - auto.
  - intros x y H. destruct (cell_leb_total x y); congruence.
Qed.

Lemma argsort_ties_reversed_spec : argsort_spec argsort_ties_reversed.
Proof.
  apply argsort_by_spec.
  - intros x y H. apply negb_true_iff in H.
    destruct (cell_leb_total x y); congruence.
  - intros x y H. now apply negb_false_iff in H.
Qed.

Lemma take_seq : forall (A : Type) (l : list A) d,
  take (seq 0 (List.length l)) l d = l.
Proof.
  intros A l d. unfold take.
  apply nth_ext with (d := d) (d' := d).
  - now rewrite length_map, length_seq.
  - intros n Hn. rewrite length_map, length_seq in Hn.
    rewrite nth_indep with (d' := nth 0 l d)
      by now rewrite length_map, length_seq.
    change (nth 0 l d) with ((fun i => nth i l d) 0).
    rewrite map_nth. now rewrite seq_nth.
Qed.

Lemma take_perm : forall (A : Type) idx (l : list A) d,
  Permutation idx (seq 0 (List.length l)) -> Permutation (take idx l d) l.
Proof.
  intros A idx l d H.
  rewrite <- (take_seq A l d) at 2. unfold take. now apply Permutation_map.
Qed.

Lemma sorted_map : forall (A B : Type) (R : A -> A -> Prop)
  (R' : B -> B -> Prop) (f : A -> B) l,
  (forall a b, R a b -> R' (f a) (f b)) ->
  Sorted R l -> Sorted R' (map f l).
Proof.
  intros A B R R' f l HR Hs. induction Hs as [|a l Hs IH Hhd]; simpl.
  - constructor.
  - constructor; [assumption|].
    destruct Hhd; simpl; constructor; auto.
Qed.

Lemma argsort_length : forall argsort ks,
  argsort_spec argsort -> List.length (argsort ks) = List.length ks.
Proof.
  intros argsort ks H. destruct (H ks) as [Hp _].
  apply Permutation_length in Hp. now rewrite length_seq in Hp.
Qed.

(** Two keys in increasing order are swapped by every descending sort. *)
Lemma argsort_swaps_increasing_pair : forall argsort,
  argsort_spec argsort ->
  argsort [CNum (inject_Z 1); CNum (inject_Z 2)] = [1; 0].
Proof.
  intros argsort H.
  destruct (H [CNum (inject_Z 1); CNum (inject_Z 2)]) as [Hp Hs].
  simpl in Hp. apply Permutation_sym, Permutation_length_2_inv in Hp.
  destruct Hp as [Hp|Hp]; [|exact Hp].
  rewrite Hp in Hs. inversion Hs as [|? ? _ Hhd]; subst.
  inversion Hhd as [|? ? Hrel]; subst. vm_compute in Hrel. discriminate.
Qed.

(** ** The stress distribution *)

(** C4, as stated, fails: the sample's first ward is Low Stress, yet the
    pie lists High Stress, which has more wards, first. *)
Lemma stress_distribution_not_in_first_seen_order :
  exists z,
    getitem "stress_zone" three_wards = Ok z /\
    counts_first_seen (cells z)
    = [(CStr "Low Stress", 1); (CStr "High Stress", 2)] /\
    value_counts argsort_stable z
    = [(CStr "High Stress", 2); (CStr "Low Stress", 1)] /\
    value_counts argsort_ties_reversed z
    = [(CStr "High Stress", 2); (CStr "Low Stress", 1)] /\
    stress_distribution argsort_stable (Some three_wards)
    = (FigureJson
         (mkFigure
            [Pie [CStr "High Stress"; CStr "Low Stress"] [2; 1]
               ["#e74c3c"; "#f39c12"; "#2ecc71"] "label+percent+value"]
            (Some (mkLayout "Stress Zone Distribution" None None 450))),
       200) /\
    value_counts argsort_stable z <> counts_first_seen (cells z).
Proof.
  eexists. split; [reflexivity|].
  repeat split; try (vm_compute; reflexivity).
  vm_compute. discriminate.
Qed.

(** C4, amended.  The pie lists every distinct [stress_zone] value once
    with its count, the counts never increasing along the list. *)
Theorem stress_distribution_by_count_descending :
  forall argsort df z,
    argsort_spec argsort ->
    getitem "stress_zone" df = Ok z ->
    exists pairs,
      stress_distribution argsort (Some df)
      = (FigureJson
           (mkFigure
              [Pie (map fst pairs) (map snd pairs)
                 ["#e74c3c"; "#f39c12"; "#2ecc71"] "label+percent+value"]
              (Some (mkLayout "Stress Zone Distribution" None None 450))),
         200) /\
      Permutation pairs (counts_first_seen (cells z)) /\
      StronglySorted (fun a b => snd b <= snd a) pairs.
Proof.
  intros argsort df z Hspec Hz.
  exists (value_counts argsort z). split.
  - unfold stress_distribution, stress_distribution_body.
    now rewrite Hz.
  - unfold value_counts.
    set (vc := counts_first_seen (cells z)).
    destruct (Hspec (map count_key vc)) as [Hp Hs].
    rewrite length_map in Hp. split.
    + now apply take_perm.
    + apply Sorted_StronglySorted.
      * intros a b c Hab Hbc. lia.
      * unfold take. eapply sorted_map; [|exact Hs].
        intros i j Hij. unfold desc_along in Hij.
        change (CNum 0) with (count_key (CNum 0, 0)) in Hij.
        rewrite !map_nth in Hij. unfold count_key in Hij. simpl in Hij.
        apply Qle_bool_iff in Hij. rewrite <- Zle_Qle in Hij. lia.
Qed.

Lemma stress_distribution_by_count_descending_sample :
  exists pairs,
    stress_distribution argsort_stable (Some three_wards)
    = (FigureJson
         (mkFigure
            [Pie (map fst pairs) (map snd pairs)
               ["#e74c3c"; "#f39c12"; "#2ecc71"] "label+percent+value"]
            (Some (mkLayout "Stress Zone Distribution" None None 450))),
       200) /\
    Permutation pairs
      (counts_first_seen
         (cells (StrCol ["Low Stress"; "High Stress"; "High Stress"]))) /\
    StronglySorted (fun a b => snd b <= snd a) pairs.
Proof.
  apply (stress_distribution_by_count_descending argsort_stable three_wards).
  - apply argsort_stable_spec.
  - reflexivity.
Defined.

(** C5 on the sample.  The colours of the pie go by position, so with
    High Stress listed first and no Medium Stress ward, Low Stress is
    painted with the second colour, orange, while the other handlers
    paint it green. *)
Theorem pie_paints_low_stress_orange :
  forall argsort,
    argsort_spec argsort ->
    exists t lay,
      stress_distribution argsort (Some three_wards)
      = (FigureJson (mkFigure [t] lay), 200) /\
      pie_color t (CStr "High Stress") = Some "#e74c3c" /\
      pie_color t (CStr "Low Stress") = Some "#f39c12" /\
      colors_map "Low Stress" = Some "#2ecc71".
Proof.
  intros argsort Hspec.
  unfold stress_distribution, stress_distribution_body. simpl bind.
  unfold value_counts.
  change (map count_key _)
    with [CNum (inject_Z 1); CNum (inject_Z 2)].
  rewrite (argsort_swaps_increasing_pair argsort Hspec).
  do 2 eexists. split; [reflexivity|].
  repeat split.
Qed.

Lemma pie_paints_low_stress_orange_sample :
  exists t lay,
    stress_distribution argsort_stable (Some three_wards)
    = (FigureJson (mkFigure [t] lay), 200) /\
    pie_color t (CStr "High Stress") = Some "#e74c3c" /\
    pie_color t (CStr "Low Stress") = Some "#f39c12" /\
    colors_map "Low Stress" = Some "#2ecc71".
Proof.
  apply (pie_paints_low_stress_orange argsort_stable).
  apply argsort_stable_spec.
Defined.

(** ** The ward table *)

Lemma wf_lookup : forall df k c,
  wf df -> lookup k (cols df) = Some c -> col_len c = nrows df.
Proof.
  intros df k c Hwf. unfold wf in Hwf.
  induction (cols df) as [|[k' c'] t IH]; simpl; intros H; [discriminate|].
  inversion Hwf as [|? ? Hc Ht]; subst.
  destruct (String.eqb k k').
  - injection H as <-. exact Hc.
  - now apply IH.
Qed.

Lemma getitem_lookup : forall k df c,
  getitem k df = Ok c <-> lookup k (cols df) = Some c.
Proof.
  intros k df c. unfold getitem.
  destruct (lookup k (cols df)); split; intros H;
    try discriminate; now injection H as ->.
Qed.

Lemma nth_map_in_range : forall (A B : Type) (f : A -> B) l p d d',
  p < List.length l -> nth p (map f l) d' = f (nth p l d).
Proof.
  intros A B f l p d d' Hp.
  rewrite nth_indep with (d' := f d) by now rewrite length_map.
  apply map_nth.
Qed.

Lemma cell_at_take_col : forall idx c p,
  p < List.length idx -> cell_at (take_col idx c) p = cell_at c (nth p idx 0).
Proof.
  intros idx [l|l] p Hp; simpl; unfold take; f_equal.
  - now rewrite (nth_map_in_range _ _ (fun i => nth i l 0%Q) idx p 0).
  - now rewrite (nth_map_in_range _ _ (fun i => nth i l EmptyString) idx p 0).
Qed.

Lemma records_take_rows : forall idx df,
  to_dict_records (take_rows idx df) = map (row_at df) idx.
Proof.
  intros idx df. unfold to_dict_records, iterrows. simpl.
  rewrite <- (take_seq nat idx 0) at 3. unfold take. rewrite map_map.
  apply map_ext_in. intros p Hp. apply in_seq in Hp.
  unfold row_at. simpl. rewrite map_map. apply map_ext.
  intros [k c]. simpl. f_equal. apply cell_at_take_col. lia.
Qed.

Lemma select_ward_columns : forall df sel,
  select ward_columns df = Ok sel ->
  exists c1 c2 c3 c4 c5 c6 c7,
    sel = mkFrame (nrows df)
            [("ward", c1); ("pm25", c2); ("heat", c3); ("pop_density", c4);
             ("green_cover", c5); ("esi", c6); ("stress_zone", c7)] /\
    getitem "esi" df = Ok c6.
Proof.
  intros df sel H. unfold select in H.
  bind_inv_as H cs Hcs. injection H as <-.
  unfold ward_columns in Hcs. simpl in Hcs.
  repeat match type of Hcs with
    | context [getitem ?k df] =>
        let c := fresh "c" in
        destruct (getitem k df) as [c|]; simpl in Hcs; [|discriminate]
    end.
  injection Hcs as <-. repeat eexists.
Qed.


(** On the three-ward sample the same sort leaves the tie as it was:
    below 18 rows the kernel only ever inserts. *)
Lemma get_wards_quicksort_on_sample :
  exists rows,
    get_wards quicksort_indexer (Some three_wards) = (RecordsJson rows, 200) /\
    map (row_get "ward" (CNum 0)) rows = [CStr "C"; CStr "A"; CStr "B"].
Proof.
  eexists. split; vm_compute; reflexivity.
Qed.

(** So does a stable sort. *)
Lemma get_wards_stable_on_sample :
  exists rows,
    get_wards argsort_stable (Some three_wards) = (RecordsJson rows, 200) /\
    map (row_get "ward" (CNum 0)) rows = [CStr "C"; CStr "A"; CStr "B"].
Proof.
  eexists. split; vm_compute; reflexivity.
Qed.

(** *** A stable sort keeps ties in order *)

Lemma cell_leb_trans_num : forall a b c,
  is_cnum a -> is_cnum b -> is_cnum c ->
  cell_leb a b = true -> cell_leb b c = true -> cell_leb a c = true.
Proof.
  intros [p|?] [q|?] [r|?]; simpl; try contradiction. intros _ _ _ H1 H2.
  apply Qle_bool_iff in H1, H2. apply Qle_bool_iff.
  eapply Qle_trans; eassumption.
Qed.

Lemma insert_stable_sorted : forall x l,
  is_cnum (snd x) ->
  Forall (fun b => is_cnum (snd b) /\ fst x < fst b) l ->
  StronglySorted tie_ordered l ->
  StronglySorted tie_ordered
    (insert_desc (fun u v => cell_leb v u) x l).
Proof.
  intros x l Hx. induction l as [|y t IH]; simpl; intros Hall Hs.
  - repeat constructor.
  - inversion Hall as [|? ? [Hy Hxy] Hall']; subst.
    inversion Hs as [|? ? Hst Hyt]; subst.
    destruct (cell_leb (snd y) (snd x)) eqn:E.
    + constructor; [assumption|]. constructor.
      * split; [exact E | intros _; exact Hxy].
      * rewrite Forall_forall in *. intros b Hb.
        destruct (Hall' b Hb) as [Hbn Hxb]. destruct (Hyt b Hb) as [Hby _].
        split; [|intros _; exact Hxb].
        apply (cell_leb_trans_num (snd b) (snd y) (snd x)); assumption.
    + constructor; [now apply IH|].
      rewrite Forall_forall in *. intros b Hb.
      apply (Permutation_in _ (insert_desc_perm _ x t)) in Hb.
      destruct Hb as [<-|Hb]; [|now apply Hyt].
      split; [|congruence].
      destruct (cell_leb_total (snd x) (snd y)); congruence.
Qed.

Lemma combine_seq_bounds : forall (ks : list cell) s p,
  In p (combine (seq s (List.length ks)) ks) -> s <= fst p /\ In (snd p) ks.
Proof.
  induction ks as [|k t IH]; intros s p Hin; simpl in Hin; [contradiction|].
  destruct Hin as [<-|Hin]; simpl; [split; [lia | now left]|].
  apply IH in Hin. destruct Hin. split; [lia | now right].
Qed.

Lemma fold_insert_stable : forall (ks : list cell) s,
  Forall is_cnum ks ->
  StronglySorted tie_ordered
    (fold_right (insert_desc (fun u v => cell_leb v u)) []
       (combine (seq s (List.length ks)) ks)).
Proof.
  induction ks as [|k t IH]; intros s Hnum; simpl; [constructor|].
  inversion Hnum as [|? ? Hk Ht]; subst.
  apply insert_stable_sorted; [exact Hk| |now apply IH].
  apply Forall_forall. intros b Hb.
  apply (Permutation_in _ (fold_insert_perm _ _)) in Hb.
  apply combine_seq_bounds in Hb. destruct Hb as [Hle Hin].
  rewrite Forall_forall in Ht. split; [now apply Ht | simpl; lia].
Qed.

Lemma strongly_sorted_nth : forall (A : Type) (R : A -> A -> Prop) l d p q,
  StronglySorted R l -> p < q < List.length l -> R (nth p l d) (nth q l d).
Proof.
  intros A R l d p q Hs. revert p q.
  induction Hs as [|a l Hs IH Hall]; intros p q Hpq; simpl in *; [lia|].
  destruct q as [|q]; [lia|]. destruct p as [|p].
  - rewrite Forall_forall in Hall. apply Hall, nth_In. lia.
  - apply IH. lia.
Qed.

(** With [kind='stable'] the ward table would keep wards of equal [esi]
    in source order. *)
Lemma argsort_stable_keeps_ties : forall es : list Q,
  ties_keep_order (map CNum es) (argsort_stable (map CNum es)).
Proof.
  intros es p q Hpq Heq.
  unfold argsort_stable, argsort_by in *.
  set (ks := map CNum es) in *.
  set (ps := fold_right (insert_desc (fun u v => cell_leb v u)) []
               (combine (seq 0 (List.length ks)) ks)) in *.
  rewrite length_map in Hpq.
  assert (Hs : StronglySorted tie_ordered ps).
  { apply fold_insert_stable. subst ks. apply Forall_forall.
    intros c Hc. apply in_map_iff in Hc. destruct Hc as (x & <- & _).
    exact I. }
  assert (Hkey : forall a, In a ps -> nth (fst a) ks (CNum 0) = snd a).
  { intros [i k] Ha. apply (Permutation_in _ (fold_insert_perm _ _)) in Ha.
    apply in_combine_seq in Ha. destruct Ha as [_ Hn].
    simpl. now rewrite Nat.sub_0_r in Hn. }
  rewrite (nth_map_in_range _ _ fst ps p (0, CNum 0) 0) in * by lia.
  rewrite (nth_map_in_range _ _ fst ps q (0, CNum 0) 0) in * by lia.
  destruct (strongly_sorted_nth _ _ ps (0, CNum 0) p q Hs Hpq) as [_ Htie].
  apply Htie.
  rewrite <- !Hkey by (apply nth_In; lia).
  subst ks. change (CNum 0) with (CNum 0%Q) in *.
  rewrite !map_nth in *. simpl in *.
  apply Qeq_bool_iff in Heq. apply Qle_bool_iff. rewrite Heq. apply Qle_refl.
Qed.



(** ** Rows selected by a mask *)

Lemma mask_list_seq_length : forall m s,
  List.length (mask_list m (seq s (List.length m)))
  = List.length (filter (fun b => b) m).
Proof.
  induction m as [|b m IH]; intros s; simpl; [reflexivity|].
  destruct b; simpl; now rewrite IH.
Qed.

Lemma eq_str_length : forall z s, List.length (eq_str z s) = col_len z.
Proof.
  intros [l|l] s; simpl; now rewrite length_map.
Qed.

Lemma selected_length : forall z s,
  List.length (selected (eq_str z s) (col_len z))
  = List.length (filter (fun b => b) (eq_str z s)).
Proof.
  intros z s. unfold selected.
  rewrite <- (eq_str_length z s). apply mask_list_seq_length.
Qed.

(** Every row is of exactly one kind: High, Medium, Low, or none of
    them. *)
Lemma zones_partition : forall z,
  List.length (filter (fun b => b) (eq_str z "High Stress"))
  + List.length (filter (fun b => b) (eq_str z "Medium Stress"))
  + List.length (filter (fun b => b) (eq_str z "Low Stress"))
  + List.length (filter (fun c => negb (known_zone c)) (cells z))
  = col_len z.
Proof.
  intros [l|l]; simpl.
  - induction l as [|x t IH]; simpl; [reflexivity|]. lia.
  - induction l as [|x t IH]; simpl; [reflexivity|].
    destruct (String.eqb x "High Stress") eqn:EH.
    { apply String.eqb_eq in EH. subst x. simpl. lia. }
    destruct (String.eqb x "Medium Stress") eqn:EM.
    { apply String.eqb_eq in EM. subst x. simpl. lia. }
    destruct (String.eqb x "Low Stress") eqn:EL.
    { apply String.eqb_eq in EL. subst x. simpl. lia. }
    simpl. lia.
Qed.

Lemma all_known_no_other : forall l,
  forallb known_zone l = true ->
  filter (fun c => negb (known_zone c)) l = [].
Proof.
  induction l as [|x t IH]; simpl; intros H; [reflexivity|].
  apply andb_true_iff in H. destruct H as [Hx Ht].
  rewrite Hx. simpl. now apply IH.
Qed.

Lemma zone_rows_ok : forall zone df h,
  zone_rows zone df = Ok h ->
  exists z,
    getitem "stress_zone" df = Ok z /\ h = filter_rows (eq_str z zone) df.
Proof.
  intros zone df h H. unfold zone_rows in H.
  bind_inv_as H z Hz. injection H as <-. eauto.
Qed.

Lemma zone_rows_len : forall zone df h z,
  wf df ->
  getitem "stress_zone" df = Ok z ->
  zone_rows zone df = Ok h ->
  len h = List.length (filter (fun b => b) (eq_str z zone)).
Proof.
  intros zone df h z Hwf Hz H.
  apply zone_rows_ok in H. destruct H as (z' & Hz' & ->).
  rewrite Hz in Hz'. injection Hz' as <-.
  unfold len, filter_rows. simpl.
  apply getitem_lookup in Hz. apply (wf_lookup _ _ _ Hwf) in Hz.
  rewrite <- Hz. apply selected_length.
Qed.

(** ** The overview *)

Lemma overview_body_counts : forall df o z,
  wf df ->
  getitem "stress_zone" df = Ok z ->
  overview_body df = Ok o ->
  total_wards o = nrows df /\
  high_stress_count o + medium_stress_count o + low_stress_count o
  + List.length (filter (fun c => negb (known_zone c)) (cells z))
  = total_wards o.
Proof.
  intros df o z Hwf Hz H. unfold overview_body in H.
  bind_inv_as H h Hh. bind_inv_as H m Hm. bind_inv_as H l Hl.
  bind_inv_as H pm Hpm. bind_inv_as H mpm Hmpm.
  bind_inv_as H es Hes. bind_inv_as H mes Hmes.
  injection H as <-. cbn [total_wards high_stress_count
                           medium_stress_count low_stress_count].
  split; [reflexivity|].
  rewrite (zone_rows_len _ _ _ _ Hwf Hz Hh).
  rewrite (zone_rows_len _ _ _ _ Hwf Hz Hm).
  rewrite (zone_rows_len _ _ _ _ Hwf Hz Hl).
  assert (Hn : col_len z = len df).
  { apply getitem_lookup in Hz. now apply (wf_lookup _ _ _ Hwf) in Hz. }
  rewrite <- Hn. apply zones_partition.
Qed.

Lemma overview_body_zone : forall df o,
  overview_body df = Ok o -> exists z, getitem "stress_zone" df = Ok z.
Proof.
  intros df o H. unfold overview_body in H. bind_inv_as H h Hh.
  apply zone_rows_ok in Hh. destruct Hh as (z & Hz & _). eauto.
Qed.

(** C6, as stated, fails: a ward whose label is none of the three is
    counted in [total_wards] and in none of the three counts. *)
Lemma overview_counts_miss_unknown_zone :
  exists o,
    get_overview (Some with_unknown_zone) = (OverviewJson o, 200) /\
    total_wards o = 2 /\
    high_stress_count o = 1 /\
    medium_stress_count o = 0 /\
    low_stress_count o = 0 /\
    high_stress_count o + medium_stress_count o + low_stress_count o
    <> total_wards o.
Proof.
  eexists. split; [vm_compute; reflexivity|].
  simpl. repeat split. discriminate.
Qed.

(** C6, amended.  The three counts and the number of rows whose label is
    none of the three add up to [total_wards]; so the three counts add up
    to [total_wards] when every label is one of the three. *)
Theorem overview_counts_add_up_on_known_zones :
  forall df o,
    wf df ->
    overview_body df = Ok o ->
    exists z,
      getitem "stress_zone" df = Ok z /\
      get_overview (Some df) = (OverviewJson o, 200) /\
      high_stress_count o + medium_stress_count o + low_stress_count o
      + List.length (filter (fun c => negb (known_zone c)) (cells z))
      = total_wards o /\
      (forallb known_zone (cells z) = true ->
       high_stress_count o + medium_stress_count o + low_stress_count o
       = total_wards o).
Proof.
  intros df o Hwf H.
  destruct (overview_body_zone df o H) as [z Hz].
  destruct (overview_body_counts df o z Hwf Hz H) as [_ Hpart].
  exists z. split; [exact Hz|].
  split; [unfold get_overview; now rewrite H|].
  split; [exact Hpart|].
  intros Hall. rewrite (all_known_no_other _ Hall) in Hpart.
  simpl in Hpart. lia.
Qed.

Lemma overview_counts_add_up_on_known_zones_sample :
  exists z,
    getitem "stress_zone" three_wards = Ok z /\
    get_overview (Some three_wards)
    = (OverviewJson
         (mkOverview 3 2 0 1 (Fin (round (30 # 1) 1))
            (Fin (round (19 # 30) 3))), 200) /\
    2 + 0 + 1
    + List.length (filter (fun c => negb (known_zone c)) (cells z)) = 3 /\
    (forallb known_zone (cells z) = true -> 2 + 0 + 1 = 3).
Proof.
  apply (overview_counts_add_up_on_known_zones three_wards
           (mkOverview 3 2 0 1 (Fin (round (30 # 1) 1))
              (Fin (round (19 # 30) 3)))).
  - repeat constructor.
  - vm_compute. reflexivity.
Defined.

(** ** The scatter of PM2.5 against green cover *)

Lemma lookup_filter_rows : forall m k l,
  lookup k (map (fun kc : string * column => (fst kc, mask_col m (snd kc))) l)
  = match lookup k l with
    | Some c => Some (mask_col m c)
    | None => None
    end.
Proof.
  induction l as [|[k' c'] t IH]; simpl; [reflexivity|].
  destruct (String.eqb k k'); auto.
Qed.

Lemma getitem_filter_rows : forall m k df,
  getitem k (filter_rows m df) = (c <- getitem k df ;; Ok (mask_col m c)).
Proof.
  intros m k df. unfold getitem, filter_rows. simpl.
  rewrite lookup_filter_rows. now destruct (lookup k (cols df)).
Qed.

Lemma mask_list_nth : forall (A : Type) (d : A) m (l : list A) s,
  mask_list m l
  = map (fun i => nth (i - s) l d) (mask_list m (seq s (List.length l))).
Proof.
  induction m as [|b m IH]; intros l s; [reflexivity|].
  destruct l as [|x l]; [reflexivity|]. simpl.
  assert (Htail : mask_list m l
                  = map (fun i => nth (i - s) (x :: l) d)
                      (mask_list m (seq (S s) (List.length l)))).
  { rewrite (IH l (S s)). apply map_ext_in. intros i Hi.
    assert (Hle : S s <= i).
    { clear - Hi. revert Hi. generalize (S s) (List.length l).
      induction m as [|b m IHm]; intros s' n Hi; [contradiction|].
      destruct n as [|n]; [contradiction|]. simpl in Hi.
      destruct b; [destruct Hi as [<-|Hi]; [lia|]|];
        apply IHm in Hi; lia. }
    replace (i - s) with (S (i - S s)) by lia. reflexivity. }
  destruct b; simpl; [rewrite Nat.sub_diag|]; now rewrite Htail.
Qed.

Lemma cells_mask_col : forall m c,
  cells (mask_col m c) = map (cell_at c) (selected m (col_len c)).
Proof.
  intros m [l|l]; simpl; unfold selected.
  - rewrite (mask_list_nth _ 0%Q m l 0), !map_map.
    apply map_ext. intros i. now rewrite Nat.sub_0_r.
  - rewrite (mask_list_nth _ EmptyString m l 0), !map_map.
    apply map_ext. intros i. now rewrite Nat.sub_0_r.
Qed.

Lemma mask_list_map : forall (A B : Type) (f : A -> B) m l,
  mask_list m (map f l) = map f (mask_list m l).
Proof.
  induction m as [|b m IH]; intros l; [reflexivity|].
  destruct l as [|x l]; [reflexivity|]. simpl.
  destruct b; simpl; now rewrite IH.
Qed.

Lemma mul_scalar_mask_col : forall m c k,
  mul_scalar (mask_col m c) k = mask_col m (mul_scalar c k).
Proof.
  intros m [l|l] k; simpl; now rewrite mask_list_map.
Qed.

Lemma col_len_mul_scalar : forall c k, col_len (mul_scalar c k) = col_len c.
Proof.
  intros [l|l] k; simpl; now rewrite length_map.
Qed.

Lemma in_mask_list_seq : forall m s n i,
  In i (mask_list m (seq s n)) -> s <= i /\ nth (i - s) m false = true.
Proof.
  induction m as [|b m IH]; intros s n i Hi; [contradiction|].
  destruct n as [|n]; [contradiction|]. simpl in Hi.
  assert (Htail : In i (mask_list m (seq (S s) n)) ->
                  s <= i /\ nth (i - s) (b :: m) false = true).
  { intros H. apply IH in H. destruct H as [Hle Hnth]. split; [lia|].
    replace (i - s) with (S (i - S s)) by lia. exact Hnth. }
  destruct b; [|now apply Htail].
  destruct Hi as [<-|Hi]; [|now apply Htail].
  split; [lia|]. now rewrite Nat.sub_diag.
Qed.

(** A row a mask [== zone] selects carries that label. *)
Lemma selected_has_zone : forall z zone n i,
  In i (selected (eq_str z zone) n) -> cell_at z i = CStr zone.
Proof.
  intros z zone n i Hi. unfold selected in Hi.
  apply in_mask_list_seq in Hi. destruct Hi as [_ Hnth].
  rewrite Nat.sub_0_r in Hnth.
  destruct z as [l|l]; simpl in *.
  - exfalso. revert i Hnth.
    induction l as [|x l IH]; intros [|i] H; simpl in H;
      try discriminate. now apply (IH i).
  - f_equal. revert i Hnth.
    induction l as [|x l IH]; intros [|i] H; simpl in H;
      try discriminate.
    + now apply String.eqb_eq.
    + now apply IH.
Qed.

Lemma zones_are_known : forall zone,
  In zone zones -> known_zone (CStr zone) = true.
Proof.
  intros zone [<-|[<-|[<-|[]]]]; reflexivity.
Qed.

Lemma unknown_not_plotted : forall z n i,
  known_zone (cell_at z i) = false -> ~ In i (plotted z n).
Proof.
  intros z n i Hunk Hin. unfold plotted in Hin.
  apply in_flat_map in Hin. destruct Hin as (zone & Hzone & Hi).
  apply selected_has_zone in Hi. rewrite Hi in Hunk.
  rewrite (zones_are_known zone Hzone) in Hunk. discriminate.
Qed.

Lemma zone_trace_ok : forall df z zone ts,
  wf df ->
  getitem "stress_zone" df = Ok z ->
  zone_trace df zone = Ok ts ->
  Forall (trace_of_zone df z zone) ts.
Proof.
  intros df z zone ts Hwf Hz H. unfold zone_trace in H.
  bind_inv_as H h Hh.
  apply zone_rows_ok in Hh. destruct Hh as (z' & Hz' & ->).
  rewrite Hz in Hz'. injection Hz' as <-.
  destruct (Nat.ltb 0 _); [|injection H as <-; constructor].
  rewrite !getitem_filter_rows in H.
  bind_inv_as H g' Hg. bind_inv_as Hg g Hg0. injection Hg as <-.
  bind_inv_as H pm' Hpm. bind_inv_as Hpm pm Hpm0. injection Hpm as <-.
  bind_inv_as H c Hc.
  bind_inv_as H w' Hw. bind_inv_as Hw w Hw0. injection Hw as <-.
  injection H as <-. constructor; [|constructor].
  exists g, pm, w, c. repeat split; try assumption.
  - destruct (colors_map zone); [now injection Hc as -> | discriminate].
  - assert (Hlen : forall k col, getitem k df = Ok col -> col_len col = nrows df).
    { intros k col Hk. apply getitem_lookup in Hk.
      now apply (wf_lookup _ _ _ Hwf) in Hk. }
    rewrite mul_scalar_mask_col, !cells_mask_col, col_len_mul_scalar.
    now rewrite (Hlen _ _ Hg0), (Hlen _ _ Hpm0), (Hlen _ _ Hw0).
Qed.

(** C10.  A row whose label is none of the three is in no series of the
    scatter: every trace is the set of rows of one of the three labels,
    and the row is not among the rows plotted, though [total_wards]
    counts it. *)
Theorem pm25_green_leaves_out_unknown_zones :
  forall df z f o i,
    wf df ->
    getitem "stress_zone" df = Ok z ->
    pm25_green_body df = Ok f ->
    overview_body df = Ok o ->
    i < nrows df ->
    known_zone (cell_at z i) = false ->
    pm25_green (Some df) = (FigureJson f, 200) /\
    Forall (fun t => exists zone, In zone zones /\ trace_of_zone df z zone t)
      (data f) /\
    ~ In i (plotted z (nrows df)) /\
    i < total_wards o /\
    high_stress_count o + medium_stress_count o + low_stress_count o
    < total_wards o.
Proof.
  intros df z f o i Hwf Hz Hf Ho Hi Hunk.
  split; [unfold pm25_green; rewrite Hf; reflexivity|].
  split; [|split; [apply unknown_not_plotted; exact Hunk|]].
  - unfold pm25_green_body in Hf. bind_inv_as Hf tss Htss.
    injection Hf as <-.
    apply for_each_ok in Htss.
    inversion Htss as [|? t1 ? r1 H1 Hr1]; subst.
    inversion Hr1 as [|? t2 ? r2 H2 Hr2]; subst.
    inversion Hr2 as [|? t3 ? r3 H3 Hr3]; subst.
    inversion Hr3; subst.
    cbn [data List.concat]. rewrite app_nil_r.
    apply Forall_app; split; [|apply Forall_app; split];
      match goal with
      | Hzt : zone_trace df ?zone = Ok ?ts |- Forall _ ?ts =>
          eapply Forall_impl; [|exact (zone_trace_ok df z zone ts Hwf Hz Hzt)];
          intros t Ht; exists zone; split; [unfold zones, In; tauto | exact Ht]
      end.
  - destruct (overview_body_counts df o z Hwf Hz Ho) as [Htot Hsum].
    split; [lia|].
    assert (Hin : In (cell_at z i)
                    (filter (fun c => negb (known_zone c)) (cells z))).
    { apply filter_In. split; [|now rewrite Hunk].
      assert (Hlen : col_len z = nrows df).
      { apply getitem_lookup in Hz. now apply (wf_lookup _ _ _ Hwf) in Hz. }
      destruct z as [l|l]; simpl in *.
      - apply in_map, nth_In. lia.
      - apply in_map, nth_In. lia. }
    destruct (filter _ (cells z)); [contradiction|]. simpl in Hsum. lia.
Qed.

Lemma pm25_green_leaves_out_unknown_zones_sample :
  exists z f o,
    getitem "stress_zone" with_unknown_zone = Ok z /\
    pm25_green_body with_unknown_zone = Ok f /\
    overview_body with_unknown_zone = Ok o /\
    cell_at z 1 = CStr "Critical" /\
    List.length (data f) = 1 /\
    total_wards o = 2 /\
    pm25_green (Some with_unknown_zone) = (FigureJson f, 200) /\
    Forall
      (fun t =>
         exists zone, In zone zones /\ trace_of_zone with_unknown_zone z zone t)
      (data f) /\
    ~ In 1 (plotted z (nrows with_unknown_zone)) /\
    1 < total_wards o /\
    high_stress_count o + medium_stress_count o + low_stress_count o
    < total_wards o.
Proof.
  do 3 eexists.
  split; [reflexivity|].
  split; [vm_compute; reflexivity|].
  split; [vm_compute; reflexivity|].
  split; [reflexivity|]. split; [reflexivity|]. split; [reflexivity|].
  apply (pm25_green_leaves_out_unknown_zones with_unknown_zone).
  - repeat constructor.
  - reflexivity.
  - vm_compute. reflexivity.
  - vm_compute. reflexivity.
  - simpl. lia.
  - reflexivity.
Defined.

(** ** The insights *)

Lemma row_lookup_row_at : forall k i l,
  row_lookup k (map (fun kc : string * column => (fst kc, cell_at (snd kc) i)) l)
  = match lookup k l with
    | Some c => Some (cell_at c i)
    | None => None
    end.
Proof.
  induction l as [|[k' c'] t IH]; simpl; [reflexivity|].
  destruct (String.eqb k k'); auto.
Qed.

Lemma row_getitem_row_at : forall k df i c,
  lookup k (cols df) = Some c ->
  row_getitem k (row_at df i) = Ok (cell_at c i).
Proof.
  intros k df i c H. unfold row_getitem, row_at.
  now rewrite row_lookup_row_at, H.
Qed.

(** The sum over the High Stress rows of a numeric or absent column is a
    number. *)
Lemma high_sum_ok : forall k df z d,
  lookup "stress_zone" (cols df) = Some z ->
  num_or_absent (lookup k (cols df)) = true ->
  exists q,
    (if has_col k df
     then (h <- zone_rows "High Stress" df ;;
           p <- getitem k h ;; Ok (sum p))
     else Ok (CNum d)) = Ok (CNum q).
Proof.
  intros k df z d Hz Hk. unfold has_col, zone_rows, getitem at 1.
  rewrite Hz. cbn [bind]. rewrite getitem_filter_rows. unfold getitem.
  destruct (lookup k (cols df)) as [[l|l]|]; try discriminate; cbn; eauto.
Qed.

Lemma total_sum_ok : forall k df d,
  num_or_absent (lookup k (cols df)) = true ->
  exists q,
    (if has_col k df
     then (b <- getitem k df ;; Ok (sum b))
     else Ok (CNum d)) = Ok (CNum q).
Proof.
  intros k df d Hk. unfold has_col, getitem.
  destruct (lookup k (cols df)) as [[l|l]|]; try discriminate; cbn; eauto.
Qed.

Lemma insights_ready_ok : forall df,
  wf df ->
  insights_ready df = true ->
  exists cards,
    insights_body df = Ok cards /\ map card_title cards = insight_titles.
Proof.
  intros df Hwf Hready. unfold insights_ready in Hready.
  repeat (apply andb_true_iff in Hready;
          let H := fresh "H" in destruct Hready as [Hready H]).
  apply Nat.ltb_lt in Hready.
  unfold has_col in H4, H3.
  destruct (lookup "stress_zone" (cols df)) as [z|] eqn:Ez; [|discriminate].
  destruct (lookup "ward" (cols df)) as [w|] eqn:Ew; [|discriminate].
  destruct (lookup "pm25" (cols df)) as [[pl|?]|] eqn:Epm; try discriminate.
  destruct (lookup "green_cover" (cols df)) as [[gl|?]|] eqn:Eg;
    try discriminate.
  assert (Hpl : List.length pl = nrows df)
    by exact (wf_lookup df _ _ Hwf Epm).
  destruct pl as [|x pl]; [simpl in Hpl; lia|].
  destruct (high_sum_ok "population" df z 0%Q Ez H0) as [cp Hcp].
  destruct (high_sum_ok "total_budget" df z 0%Q Ez H) as [hb Hhb].
  destruct (total_sum_ok "total_budget" df 1%Q H) as [tb Htb].
  unfold insights_body.
  rewrite Hcp, Hhb, Htb.
  unfold zone_rows, getitem. rewrite Ez, Epm, Eg.
  assert (Hn : Nat.eqb (len df) 0 = false)
    by (apply Nat.eqb_neq; unfold len; lia).
  rewrite Hn.
  cbn [bind idxmax mean].
  rewrite (row_getitem_row_at _ _ _ _ Epm), (row_getitem_row_at _ _ _ _ Ew).
  cbn [bind cell_at num_or].
  destruct (Qltb 0 (Qsum (x :: pl) / _)); cbn [bind];
    destruct gl as [|g gl]; cbn [bind mean];
    destruct (Qltb 0 tb); cbn [bind];
    (eexists; split; reflexivity).
Qed.

Lemma insights_body_titles : forall df cards,
  insights_body df = Ok cards -> map card_title cards = insight_titles.
Proof.
  intros df cards H. unfold insights_body in H.
  repeat (bind_inv H; cbv beta zeta in H).
  now injection H as <-.
Qed.

(** C2, as stated, fails: without a dataset, and for a file with a header
    and no rows, the handler answers with no card at all. *)
Lemma insights_none_without_rows :
  get_insights None = (InsightsJson [], 200) /\
  load (Ok no_rows) = Some no_rows /\
  insights_body no_rows = Raise ZeroDivisionError /\
  get_insights (Some no_rows) = (InsightsJson [], 200) /\
  List.length (@nil card) <> 5.
Proof.
  repeat split; try (vm_compute; reflexivity). discriminate.
Qed.

(** C2, amended.  The handler answers with the five cards, in the fixed
    order, or with none.  It answers with none when there is no dataset,
    and with the five for every loaded dataset of at least one row whose
    [stress_zone] and [ward] columns exist, whose [pm25] and
    [green_cover] columns are numeric and whose [population] and
    [total_budget] columns are numeric or absent. *)
Theorem insights_five_cards_or_none :
  forall df : option DataFrame,
    exists cards,
      get_insights df = (InsightsJson cards, 200) /\
      (cards = [] \/ map card_title cards = insight_titles) /\
      (df = None -> cards = []) /\
      (forall d,
         df = Some d -> wf d -> insights_ready d = true ->
         map card_title cards = insight_titles /\ List.length cards = 5).
Proof.
  intros [d|]; unfold get_insights.
  - destruct (insights_body d) as [cards|e] eqn:E.
    + exists cards. pose proof (insights_body_titles d cards E) as Ht.
      split; [reflexivity|]. split; [now right|].
      split; [discriminate|]. intros d' _ _ _. split; [exact Ht|].
      apply (f_equal (@List.length string)) in Ht.
      now rewrite length_map in Ht.
    + exists []. split; [reflexivity|]. split; [now left|].
      split; [reflexivity|]. intros d' Hd Hwf Hready. injection Hd as <-.
      destruct (insights_ready_ok d Hwf Hready) as (cards & Hc & _).
      congruence.
  - exists []. split; [reflexivity|]. split; [now left|].
    split; [reflexivity|]. discriminate.
Qed.

Lemma insights_five_cards_or_none_sample :
  exists cards,
    get_insights (Some three_wards) = (InsightsJson cards, 200) /\
    map card_title cards = insight_titles /\ List.length cards = 5.
Proof.
  destruct (insights_five_cards_or_none (Some three_wards))
    as (cards & Hget & _ & _ & Hready).
  exists cards. split; [exact Hget|].
  apply (Hready three_wards); [reflexivity | repeat constructor | reflexivity].
Defined.

(** ** The HTTP status *)

(** C1, as stated, fails: on a file without the [stress_zone] column the
    overview and the two chart handlers answer with status 500. *)
Lemma chart_handlers_answer_500 :
  load (Ok without_zone) = Some without_zone /\
  handle argsort_stable ApiOverview (Some without_zone)
  = (ErrorJson (KeyError "stress_zone"), 500) /\
  handle argsort_stable ApiStressDistribution (Some without_zone)
  = (ErrorJson (KeyError "stress_zone"), 500) /\
  handle argsort_stable ApiPm25Green (Some without_zone)
  = (ErrorJson (KeyError "stress_zone"), 500) /\
  snd (handle argsort_stable ApiOverview (Some without_zone)) <> 200.
Proof.
  repeat split; try (vm_compute; reflexivity). vm_compute. discriminate.
Qed.

(** C1, amended.  Every handler answers with status 200 when there is no
    dataset, and the map, the ward table, the insights and the FAQ do so
    in every dataset state: where their computation raises, the answer is
    the HTML error fragment or the empty list.  The overview and the two
    charts answer with status 200 and the computed payload exactly when
    their computation raises nothing; when it raises, they answer with
    the error payload and status 500. *)
Theorem status_200_unless_chart_computation_raises :
  forall argsort (df : option DataFrame),
    (forall e,
       df = None ->
       snd (handle argsort e df) = 200 /\
       forall ex, fst (handle argsort e df) <> ErrorJson ex) /\
    (forall e,
       answers_500 e = false ->
       snd (handle argsort e df) = 200 /\
       forall ex, fst (handle argsort e df) <> ErrorJson ex) /\
    (forall d,
       df = Some d ->
       (forall o,
          overview_body d = Ok o ->
          handle argsort ApiOverview df = (OverviewJson o, 200)) /\
       (forall ex,
          overview_body d = Raise ex ->
          handle argsort ApiOverview df = (ErrorJson ex, 500)) /\
       (forall f,
          stress_distribution_body argsort d = Ok f ->
          handle argsort ApiStressDistribution df = (FigureJson f, 200)) /\
       (forall ex,
          stress_distribution_body argsort d = Raise ex ->
          handle argsort ApiStressDistribution df = (ErrorJson ex, 500)) /\
       (forall f,
          pm25_green_body d = Ok f ->
          handle argsort ApiPm25Green df = (FigureJson f, 200)) /\
       (forall ex,
          pm25_green_body d = Raise ex ->
          handle argsort ApiPm25Green df = (ErrorJson ex, 500)) /\
       (forall ex,
          map_body d = Raise ex ->
          handle argsort ApiMap df = (HtmlBody (ErrorDiv (Some ex)), 200)) /\
       (forall ex,
          wards_body argsort d = Raise ex ->
          handle argsort ApiWards df = (RecordsJson [], 200)) /\
       (forall ex,
          insights_body d = Raise ex ->
          handle argsort ApiInsights df = (InsightsJson [], 200))).
Proof.
  intros argsort df. split; [|split].
  - intros e ->. destruct e; split; try reflexivity; discriminate.
  - intros e He. destruct e; try discriminate He; destruct df as [d|];
      unfold handle, get_map, get_wards, get_insights, get_faq.
    + destruct (map_body d); split; try reflexivity; discriminate.
    + split; [reflexivity | discriminate].
    + destruct (wards_body argsort d); split; try reflexivity; discriminate.
    + split; [reflexivity | discriminate].
    + destruct (insights_body d); split; try reflexivity; discriminate.
    + split; [reflexivity | discriminate].
    + split; [reflexivity | discriminate].
    + split; [reflexivity | discriminate].
  - intros d ->.
    unfold handle, get_overview, stress_distribution, pm25_green, get_map,
      get_wards, get_insights.
    split; [intros o H; rewrite H; reflexivity|].
    split; [intros ex H; rewrite H; reflexivity|].
    split; [intros f H; rewrite H; reflexivity|].
    split; [intros ex H; rewrite H; reflexivity|].
    split; [intros f H; rewrite H; reflexivity|].
    split; [intros ex H; rewrite H; reflexivity|].
    split; [intros ex H; rewrite H; reflexivity|].
    split; [intros ex H; rewrite H; reflexivity|].
    intros ex H; rewrite H; reflexivity.
Qed.

(** The sample frames are as the loader leaves them. *)
Lemma samples_loaded :
  load (Ok three_wards) = Some three_wards /\
  load (Ok with_unknown_zone) = Some with_unknown_zone /\
  load (Ok without_zone) = Some without_zone /\
  load (Ok no_rows) = Some no_rows /\
  load (Raise ValueError) = None.
Proof.
  repeat split; vm_compute; reflexivity.
Qed.

(** * Further properties *)

(** ** The loader, continued *)

Lemma load_normalized : forall raw, load (Ok raw) = Some (normalized raw).
Proof. exact load_ok. Qed.

Lemma set_col_same : forall k c l,
  lookup k l = Some c -> set_col k c l = l.
Proof.
  induction l as [|[k' c'] t IH]; simpl; intros H; [discriminate|].
  destruct (String.eqb k k').
  - now injection H as ->.
  - now rewrite IH.
Qed.

Lemma frame_eta : forall df, mkFrame (nrows df) (cols df) = df.
Proof. now intros []. Qed.

Lemma alias_fixed : forall src dst df,
  (forall c, lookup src (cols df) = Some c -> lookup dst (cols df) = Some c) ->
  alias src dst df = df.
Proof.
  intros src dst df H. unfold alias.
  destruct (lookup src (cols df)) as [c|]; [|reflexivity].
  unfold setitem. rewrite set_col_same by now apply H. apply frame_eta.
Qed.

Lemma default_col_fixed : forall k v df,
  has_col k df = true -> default_col k v df = df.
Proof.
  intros k v df H. unfold default_col. now rewrite H.
Qed.

Lemma has_col_default_col : forall k v df, has_col k (default_col k v df) = true.
Proof.
  intros k v df. unfold has_col. rewrite lookup_default_col_same.
  now destruct (lookup k (cols df)).
Qed.

Lemma lookup_alias_dst : forall src dst df c,
  lookup src (cols df) = Some c ->
  lookup dst (cols (alias src dst df)) = Some c.
Proof.
  intros src dst df c H. unfold alias. rewrite H. simpl.
  apply lookup_set_col_same.
Qed.

Lemma lookup_normalized_lat : forall raw c,
  lookup "latitude" (cols raw) = Some c ->
  lookup "lat" (cols (normalized raw)) = Some c.
Proof.
  intros raw c H. unfold normalized.
  rewrite !lookup_default_col_other by reflexivity.
  rewrite lookup_alias_other by reflexivity.
  now apply lookup_alias_dst.
Qed.

Lemma lookup_normalized_lon : forall raw c,
  lookup "longitude" (cols raw) = Some c ->
  lookup "lon" (cols (normalized raw)) = Some c.
Proof.
  intros raw c H. unfold normalized.
  rewrite !lookup_default_col_other by reflexivity.
  apply lookup_alias_dst. now rewrite lookup_alias_other by reflexivity.
Qed.

Lemma lookup_normalized_other : forall raw k,
  loader_writes k = false ->
  lookup k (cols (normalized raw)) = lookup k (cols raw).
Proof.
  intros raw k H. unfold loader_writes in H.
  repeat (apply orb_false_iff in H; destruct H as [H ?]).
  unfold normalized.
  rewrite !lookup_default_col_other by assumption.
  now rewrite !lookup_alias_other by assumption.
Qed.

Lemma has_col_normalized_population : forall raw,
  has_col "population" (normalized raw) = true.
Proof.
  intros raw. unfold normalized, has_col.
  rewrite lookup_default_col_other by reflexivity.
  apply has_col_default_col.
Qed.

Lemma has_col_normalized_budget : forall raw,
  has_col "total_budget" (normalized raw) = true.
Proof.
  intros raw. unfold normalized. apply has_col_default_col.
Qed.

(** Loading is idempotent: a frame the loader produced is left as it is
    when it goes through the normalisation again. *)
Theorem load_idempotent : forall raw : DataFrame,
  exists df, load (Ok raw) = Some df /\ load (Ok df) = Some df.
Proof.
  intros raw. exists (normalized raw). split; [apply load_normalized|].
  rewrite load_normalized. f_equal.
  set (n := normalized raw). unfold normalized at 1.
  assert (Hlat : alias "latitude" "lat" n = n).
  { apply alias_fixed. intros c Hc. subst n.
    rewrite lookup_normalized_other in Hc by reflexivity.
    now apply lookup_normalized_lat. }
  rewrite Hlat.
  assert (Hlon : alias "longitude" "lon" n = n).
  { apply alias_fixed. intros c Hc. subst n.
    rewrite lookup_normalized_other in Hc by reflexivity.
    now apply lookup_normalized_lon. }
  rewrite Hlon.
  rewrite (default_col_fixed "population")
    by apply has_col_normalized_population.
  apply default_col_fixed, has_col_normalized_budget.
Qed.

Lemma wf_setitem : forall k c df,
  wf df -> col_len c = nrows df -> wf (setitem k c df).
Proof.
  intros k c df Hwf Hc. unfold wf, setitem in *. simpl.
  induction (cols df) as [|[k' c'] t IH]; simpl.
  - constructor; [exact Hc | constructor].
  - inversion Hwf as [|? ? Hc' Ht]; subst.
    destruct (String.eqb k k'); constructor; auto.
Qed.

Lemma wf_alias : forall src dst df, wf df -> wf (alias src dst df).
Proof.
  intros src dst df Hwf. unfold alias.
  destruct (lookup src (cols df)) as [c|] eqn:E; [|exact Hwf].
  apply wf_setitem; [exact Hwf | now apply (wf_lookup df src)].
Qed.

Lemma wf_default_col : forall k v df, wf df -> wf (default_col k v df).
Proof.
  intros k v df Hwf. unfold default_col.
  destruct (has_col k df); [exact Hwf|].
  apply wf_setitem; [exact Hwf|]. simpl. apply repeat_length.
Qed.

Lemma wf_normalized : forall raw, wf raw -> wf (normalized raw).
Proof.
  intros raw Hwf. unfold normalized.
  now repeat (apply wf_default_col || apply wf_alias).
Qed.

Lemma lookup_set_col_keeps : forall k k' c l,
  lookup k' l <> None -> lookup k' (set_col k c l) <> None.
Proof.
  intros k k' c l. induction l as [|[k0 c0] t IH]; simpl; intros H.
  - contradiction.
  - destruct (String.eqb k k0) eqn:E; simpl;
      destruct (String.eqb k' k0); auto; discriminate.
Qed.

Lemma has_col_alias_keeps : forall src dst k df,
  has_col k df = true -> has_col k (alias src dst df) = true.
Proof.
  intros src dst k df H. unfold alias.
  destruct (lookup src (cols df)) as [c|]; [|exact H].
  unfold has_col, setitem in *. simpl.
  pose proof (lookup_set_col_keeps dst k c (cols df)) as Hk.
  destruct (lookup k (cols df)); [|discriminate].
  destruct (lookup k (set_col dst c (cols df))); [reflexivity|].
  exfalso. apply Hk; [discriminate | reflexivity].
Qed.

Lemma has_col_default_col_keeps : forall k' v k df,
  has_col k df = true -> has_col k (default_col k' v df) = true.
Proof.
  intros k' v k df H. unfold default_col.
  destruct (has_col k' df); [exact H|].
  unfold has_col, setitem_scalar, setitem in *. simpl.
  pose proof (lookup_set_col_keeps k' k (NumCol (repeat v (nrows df)))
                (cols df)) as Hk.
  destruct (lookup k (cols df)); [|discriminate].
  destruct (lookup k (set_col k' _ (cols df))); [reflexivity|].
  exfalso. apply Hk; [discriminate | reflexivity].
Qed.

(** The loader keeps frames well formed: when every column of the file
    is as long as the index, so is every column afterwards, the copied
    and the defaulted ones included. *)
Theorem load_keeps_columns_aligned : forall raw : DataFrame,
  wf raw -> exists df, load (Ok raw) = Some df /\ wf df.
Proof.
  intros raw Hwf. exists (normalized raw).
  split; [apply load_normalized | now apply wf_normalized].
Qed.

Lemma load_keeps_columns_aligned_sample :
  exists df, load (Ok both_coords) = Some df /\ wf df.
Proof.
  apply (load_keeps_columns_aligned both_coords). repeat constructor.
Defined.

(** The loader writes only [lat], [lon], [population] and
    [total_budget]: every other column comes out as it went in, and no
    column of the file is dropped. *)
Theorem load_touches_only_its_columns : forall (raw : DataFrame) (k : string),
  exists df,
    load (Ok raw) = Some df /\
    (loader_writes k = false -> getitem k df = getitem k raw) /\
    (has_col k raw = true -> has_col k df = true).
Proof.
  intros raw k. exists (normalized raw).
  split; [apply load_normalized|]. split.
  - intros H. unfold getitem. now rewrite lookup_normalized_other.
  - intros H. unfold normalized.
    now repeat (apply has_col_default_col_keeps || apply has_col_alias_keeps).
Qed.

Lemma load_touches_only_its_columns_sample :
  exists df,
    load (Ok both_coords) = Some df /\
    getitem "latitude" df = getitem "latitude" both_coords /\
    has_col "ward" df = true.
Proof.
  destruct (load_touches_only_its_columns both_coords "latitude")
    as (df & Hl & Hget & _).
  destruct (load_touches_only_its_columns both_coords "ward")
    as (df' & Hl' & _ & Hhas).
  rewrite Hl in Hl'. injection Hl' as <-.
  exists df. split; [exact Hl|].
  split; [apply Hget; reflexivity | apply Hhas; reflexivity].
Defined.

(** After loading, [population] and [total_budget] are columns of the
    frame, so every row has both: the defaults [get_map] passes to
    [row.get] and the [else] branches of [get_insights] are not used on
    a loaded frame. *)
Theorem loaded_frame_has_population_and_budget :
  forall (raw : DataFrame) (i : nat),
    exists df,
      load (Ok raw) = Some df /\
      has_col "population" df = true /\
      has_col "total_budget" df = true /\
      row_getitem "population" (row_at df i)
      = Ok (row_get "population" (CNum 50000) (row_at df i)) /\
      row_getitem "total_budget" (row_at df i)
      = Ok (row_get "total_budget" (CNum 100000000) (row_at df i)).
Proof.
  intros raw i. exists (normalized raw).
  split; [apply load_normalized|].
  pose proof (has_col_normalized_population raw) as Hp.
  pose proof (has_col_normalized_budget raw) as Hb.
  split; [exact Hp|]. split; [exact Hb|].
  unfold has_col in Hp, Hb. unfold row_getitem, row_get, row_at.
  rewrite !row_lookup_row_at.
  destruct (lookup "population" (cols (normalized raw))); [|discriminate].
  destruct (lookup "total_budget" (cols (normalized raw))); [|discriminate].
  split; reflexivity.
Qed.

(** ** The overview, continued *)

Lemma overview_body_by_columns : forall df,
  (has_col "stress_zone" df = false ->
   overview_body df = Raise (KeyError "stress_zone")) /\
  (overview_ready df = true -> exists o, overview_body df = Ok o) /\
  (overview_ready df = false -> exists e, overview_body df = Raise e).
Proof.
  intros df. unfold overview_ready, overview_body, zone_rows, has_col, getitem.
  destruct (lookup "stress_zone" (cols df)) as [z|];
    destruct (lookup "pm25" (cols df)) as [[[|x pm]|[|x pm]]|];
    destruct (lookup "esi" (cols df)) as [[[|y es]|[|y es]]|];
    cbn [bind mean mean_defined andb];
    repeat split; intros H; try discriminate; eauto.
Qed.

(** The overview answers 200 exactly when the frame has a [stress_zone]
    column and its [pm25] and [esi] columns can be averaged (numeric, or
    without rows); otherwise it answers 500.  A missing [stress_zone]
    column is reported as such. *)
Theorem overview_status_by_columns : forall df : DataFrame,
  snd (get_overview (Some df)) = (if overview_ready df then 200 else 500) /\
  (has_col "stress_zone" df = false ->
   get_overview (Some df) = (ErrorJson (KeyError "stress_zone"), 500)).
Proof.
  intros df. destruct (overview_body_by_columns df) as (Hz & Hok & Hraise).
  unfold get_overview. split.
  - destruct (overview_ready df).
    + destruct (Hok eq_refl) as [o ->]. reflexivity.
    + destruct (Hraise eq_refl) as [e ->]. reflexivity.
  - intros H. now rewrite (Hz H).
Qed.

Lemma mask_list_nil_r : forall (A : Type) (m : list bool),
  mask_list m (@nil A) = [].
Proof. now intros A []. Qed.

Lemma col_len_0 : forall c, col_len c = 0 -> c = NumCol [] \/ c = StrCol [].
Proof.
  intros [[|x l]|[|x l]]; simpl; intros H; try discriminate; auto.
Qed.

(** A loaded file without rows is not the missing dataset: the overview
    answers 200 with all counts 0, and the two averages are NaN, not 0. *)
Theorem overview_of_no_rows : forall df : DataFrame,
  wf df ->
  nrows df = 0 ->
  has_col "stress_zone" df = true ->
  has_col "pm25" df = true ->
  has_col "esi" df = true ->
  get_overview (Some df) = (OverviewJson (mkOverview 0 0 0 0 NaN NaN), 200).
Proof.
  intros df Hwf Hn Hz Hpm Hes. unfold has_col in *.
  unfold get_overview, overview_body, zone_rows, getitem, len, filter_rows,
    selected.
  destruct (lookup "stress_zone" (cols df)) as [z|]; [|discriminate].
  destruct (lookup "pm25" (cols df)) as [pm|] eqn:Epm; [|discriminate].
  destruct (lookup "esi" (cols df)) as [es|] eqn:Ees; [|discriminate].
  apply (wf_lookup _ _ _ Hwf) in Epm, Ees. rewrite Hn in *.
  cbn [bind nrows seq]. rewrite !mask_list_nil_r. cbn [List.length].
  destruct (col_len_0 _ Epm) as [-> | ->];
    destruct (col_len_0 _ Ees) as [-> | ->]; reflexivity.
Qed.

Lemma overview_of_no_rows_sample :
  get_overview (Some no_rows) = (OverviewJson (mkOverview 0 0 0 0 NaN NaN), 200).
Proof.
  apply (overview_of_no_rows no_rows); try reflexivity. repeat constructor.
Defined.

(** ** The stress distribution, continued *)

Lemma cell_eqb_refl : forall c, cell_eqb c c = true.
Proof.
  intros [q|s]; simpl; [apply Qeq_bool_iff, Qeq_refl | apply String.eqb_refl].
Qed.

Lemma cell_eqb_sym : forall a b, cell_eqb a b = cell_eqb b a.
Proof.
  intros [p|s] [q|t]; simpl; try reflexivity.
  - destruct (Qeq_bool p q) eqn:E1, (Qeq_bool q p) eqn:E2; try reflexivity.
    + apply Qeq_bool_iff, Qeq_sym, Qeq_bool_iff in E1. congruence.
    + apply Qeq_bool_iff, Qeq_sym, Qeq_bool_iff in E2. congruence.
  - apply String.eqb_sym.
Qed.

Lemma cell_eqb_trans : forall a b c,
  cell_eqb a b = true -> cell_eqb b c = true -> cell_eqb a c = true.
Proof.
  intros [p|s] [q|t] [r|u]; simpl; try discriminate.
  - intros H1 H2. apply Qeq_bool_iff in H1, H2. apply Qeq_bool_iff.
    eapply Qeq_trans; eassumption.
  - intros H1 H2. apply String.eqb_eq in H1, H2. subst. apply String.eqb_refl.
Qed.

Lemma cell_eqb_congr : forall a b c,
  cell_eqb a b = true -> cell_eqb c a = cell_eqb c b.
Proof.
  intros a b c Hab.
  destruct (cell_eqb c a) eqn:E1, (cell_eqb c b) eqn:E2; try reflexivity.
  - rewrite (cell_eqb_trans c a b E1 Hab) in E2. discriminate.
  - rewrite cell_eqb_sym in Hab.
    rewrite (cell_eqb_trans c b a E2 Hab) in E1. discriminate.
Qed.

Lemma count_of_count_into : forall c x acc,
  count_of c (count_into x acc)
  = count_of c acc + (if cell_eqb c x then 1 else 0).
Proof.
  intros c x acc. induction acc as [|[y n] t IH]; simpl.
  - reflexivity.
  - destruct (cell_eqb x y) eqn:Exy; simpl.
    + rewrite (cell_eqb_congr x y c Exy).
      destruct (cell_eqb c y); lia.
    + destruct (cell_eqb c y) eqn:Ecy; [|exact IH].
      destruct (cell_eqb c x) eqn:Ecx; [|lia].
      rewrite cell_eqb_sym in Ecx.
      rewrite (cell_eqb_trans x c y Ecx Ecy) in Exy. discriminate.
Qed.

Lemma fold_count_of : forall c l acc,
  count_of c (fold_left (fun a x => count_into x a) l acc)
  = count_of c acc + occurrences c l.
Proof.
  intros c l. unfold occurrences.
  induction l as [|x l IH]; intros acc; simpl; [lia|].
  rewrite IH, count_of_count_into.
  destruct (cell_eqb c x); simpl; lia.
Qed.

Lemma count_of_first_seen : forall c l,
  count_of c (counts_first_seen l) = occurrences c l.
Proof.
  intros c l. unfold counts_first_seen. now rewrite fold_count_of.
Qed.

Lemma count_into_distinct : forall x acc,
  labels_distinct acc -> labels_distinct (count_into x acc).
Proof.
  intros x acc. induction acc as [|[y n] t IH]; simpl; intros H.
  - split; [constructor | exact I].
  - destruct H as [Hy Ht]. destruct (cell_eqb x y) eqn:E; simpl.
    + split; assumption.
    + split; [|now apply IH].
      clear IH Ht. induction t as [|[y' n'] t IHt]; simpl.
      * constructor; [exact E | constructor].
      * inversion Hy as [|? ? Hy' Hyt]; subst.
        destruct (cell_eqb x y'); constructor; auto.
Qed.

Lemma count_into_positive : forall x acc,
  Forall (fun p => 1 <= snd p) acc ->
  Forall (fun p => 1 <= snd p) (count_into x acc).
Proof.
  intros x acc. induction acc as [|[y n] t IH]; simpl; intros H.
  - constructor; [simpl; lia | constructor].
  - inversion H as [|? ? Hn Ht]; subst.
    destruct (cell_eqb x y); constructor; simpl in *; auto; lia.
Qed.

Lemma count_into_total : forall x acc,
  list_sum (map snd (count_into x acc)) = S (list_sum (map snd acc)).
Proof.
  intros x acc. induction acc as [|[y n] t IH]; simpl; [reflexivity|].
  destruct (cell_eqb x y); simpl; lia.
Qed.

Lemma counts_first_seen_invariants : forall l,
  labels_distinct (counts_first_seen l) /\
  Forall (fun p => 1 <= snd p) (counts_first_seen l) /\
  list_sum (map snd (counts_first_seen l)) = List.length l.
Proof.
  intros l. unfold counts_first_seen.
  assert (H : forall acc,
             labels_distinct acc ->
             Forall (fun p => 1 <= snd p) acc ->
             labels_distinct (fold_left (fun a x => count_into x a) l acc) /\
             Forall (fun p => 1 <= snd p)
               (fold_left (fun a x => count_into x a) l acc) /\
             list_sum (map snd (fold_left (fun a x => count_into x a) l acc))
             = list_sum (map snd acc) + List.length l).
  { induction l as [|x l IH]; intros acc Hd Hp; simpl.
    - repeat split; auto.
    - destruct (IH (count_into x acc)) as (H1 & H2 & H3).
      + now apply count_into_distinct.
      + now apply count_into_positive.
      + repeat split; auto. rewrite H3, count_into_total. lia. }
  destruct (H []) as (H1 & H2 & H3); simpl; auto.
Qed.

Lemma count_of_distinct : forall y n acc,
  labels_distinct acc -> In (y, n) acc -> count_of y acc = n.
Proof.
  intros y n acc. induction acc as [|[y0 n0] t IH]; simpl; intros Hd Hin.
  - contradiction.
  - destruct Hd as [Hy Ht]. destruct Hin as [Heq|Hin].
    + injection Heq as -> ->. now rewrite cell_eqb_refl.
    + rewrite Forall_forall in Hy. specialize (Hy _ Hin). simpl in Hy.
      rewrite Hy. now apply IH.
Qed.

Lemma count_of_found : forall c acc,
  0 < count_of c acc ->
  exists y, In (y, count_of c acc) acc /\ cell_eqb c y = true.
Proof.
  intros c acc. induction acc as [|[y n] t IH]; simpl; intros H; [lia|].
  destruct (cell_eqb c y) eqn:E.
  - exists y. split; [now left | exact E].
  - destruct (IH H) as (y' & Hin & Hy'). exists y'. auto.
Qed.




Lemma value_counts_perm : forall argsort z,
  argsort_spec argsort ->
  Permutation (value_counts argsort z) (counts_first_seen (cells z)).
Proof.
  intros argsort z Hspec. unfold value_counts.
  destruct (Hspec (map count_key (counts_first_seen (cells z)))) as [Hp _].
  rewrite length_map in Hp. now apply take_perm.
Qed.

Lemma cells_length : forall z, List.length (cells z) = col_len z.
Proof.
  intros [l|l]; simpl; apply length_map.
Qed.




Lemma occurrences_zone : forall z zone,
  occurrences (CStr zone) (cells z)
  = List.length (filter (fun b => b) (eq_str z zone)).
Proof.
  intros [l|l] zone; unfold occurrences; simpl.
  - induction l as [|x l IH]; simpl; auto.
  - induction l as [|x l IH]; simpl; [reflexivity|].
    rewrite (String.eqb_sym zone x).
    destruct (String.eqb x zone); simpl; now rewrite IH.
Qed.

Lemma overview_body_fields : forall df o z,
  wf df ->
  getitem "stress_zone" df = Ok z ->
  overview_body df = Ok o ->
  high_stress_count o = occurrences (CStr "High Stress") (cells z) /\
  medium_stress_count o = occurrences (CStr "Medium Stress") (cells z) /\
  low_stress_count o = occurrences (CStr "Low Stress") (cells z).
Proof.
  intros df o z Hwf Hz H. unfold overview_body in H.
  bind_inv_as H h Hh. bind_inv_as H m Hm. bind_inv_as H l Hl.
  bind_inv_as H pm Hpm. bind_inv_as H mpm Hmpm.
  bind_inv_as H es Hes. bind_inv_as H mes Hmes.
  injection H as <-.
  cbn [high_stress_count medium_stress_count low_stress_count].
  rewrite !occurrences_zone.
  rewrite (zone_rows_len _ _ _ _ Hwf Hz Hh).
  rewrite (zone_rows_len _ _ _ _ Hwf Hz Hm).
  rewrite (zone_rows_len _ _ _ _ Hwf Hz Hl).
  repeat split.
Qed.

Lemma value_counts_entry : forall argsort z zone n,
  argsort_spec argsort ->
  In (CStr zone, n) (value_counts argsort z)
  <-> n = occurrences (CStr zone) (cells z) /\ 0 < n.
Proof.
  intros argsort z zone n Hspec.
  pose proof (value_counts_perm argsort z Hspec) as Hperm.
  destruct (counts_first_seen_invariants (cells z)) as (Hd & Hpos & _).
  split.
  - intros Hin. apply (Permutation_in _ Hperm) in Hin.
    rewrite Forall_forall in Hpos. specialize (Hpos _ Hin). simpl in Hpos.
    split; [|lia].
    rewrite <- count_of_first_seen. symmetry. now apply count_of_distinct.
  - intros [-> Hn]. rewrite <- count_of_first_seen in *.
    destruct (count_of_found _ _ Hn) as (y & Hin & Hy).
    destruct y as [q|s]; simpl in Hy; [discriminate|].
    apply String.eqb_eq in Hy. subst s.
    now apply (Permutation_in _ (Permutation_sym Hperm)).
Qed.

(** The pie and the overview agree: a zone of the three is in the pie
    exactly when the overview counts at least one ward in it, and the
    pie's value for it is the overview's count. *)
Theorem pie_agrees_with_overview :
  forall argsort df o,
    argsort_spec argsort ->
    wf df ->
    overview_body df = Ok o ->
    exists pairs,
      stress_distribution argsort (Some df)
      = (FigureJson
           (mkFigure
              [Pie (map fst pairs) (map snd pairs)
                 ["#e74c3c"; "#f39c12"; "#2ecc71"] "label+percent+value"]
              (Some (mkLayout "Stress Zone Distribution" None None 450))),
         200) /\
      (forall n,
         In (CStr "High Stress", n) pairs
         <-> n = high_stress_count o /\ 0 < n) /\
      (forall n,
         In (CStr "Medium Stress", n) pairs
         <-> n = medium_stress_count o /\ 0 < n) /\
      (forall n,
         In (CStr "Low Stress", n) pairs
         <-> n = low_stress_count o /\ 0 < n).
Proof.
  intros argsort df o Hspec Hwf Ho.
  destruct (overview_body_zone df o Ho) as [z Hz].
  destruct (overview_body_fields df o z Hwf Hz Ho) as (Hh & Hm & Hl).
  exists (value_counts argsort z).
  split; [unfold stress_distribution, stress_distribution_body;
          now rewrite Hz|].
  rewrite Hh, Hm, Hl.
  split; [|split]; intros n; apply value_counts_entry; exact Hspec.
Qed.

Lemma pie_agrees_with_overview_sample :
  exists pairs,
    stress_distribution argsort_stable (Some with_unknown_zone)
    = (FigureJson
         (mkFigure
            [Pie (map fst pairs) (map snd pairs)
               ["#e74c3c"; "#f39c12"; "#2ecc71"] "label+percent+value"]
            (Some (mkLayout "Stress Zone Distribution" None None 450))),
       200) /\
    (forall n, In (CStr "High Stress", n) pairs <-> n = 1 /\ 0 < n) /\
    (forall n, In (CStr "Medium Stress", n) pairs <-> n = 0 /\ 0 < n) /\
    (forall n, In (CStr "Low Stress", n) pairs <-> n = 0 /\ 0 < n).
Proof.
  apply (pie_agrees_with_overview argsort_stable with_unknown_zone
           (mkOverview 2 1 0 0 (Fin (round (Qmean [50; 10]%Q) 1))
              (Fin (round (Qmean [(7 # 10); (3 # 10)]%Q) 3)))).
  - apply argsort_stable_spec.
  - repeat constructor.
  - reflexivity.
Defined.

(** ** The scatter, continued *)

Lemma zone_trace_shape : forall df z zone ts,
  wf df ->
  getitem "stress_zone" df = Ok z ->
  zone_trace df zone = Ok ts ->
  (zone_size z (nrows df) zone = 0 /\ ts = []) \/
  (0 < zone_size z (nrows df) zone /\
   exists t, ts = [t] /\ trace_of_zone df z zone t).
Proof.
  intros df z zone ts Hwf Hz H.
  pose proof (zone_trace_ok df z zone ts Hwf Hz H) as Hall.
  unfold zone_trace, zone_rows in H. rewrite Hz in H. cbn [bind] in H.
  change (len (filter_rows (eq_str z zone) df))
    with (zone_size z (nrows df) zone) in H.
  destruct (Nat.ltb 0 (zone_size z (nrows df) zone)) eqn:E.
  - right. apply Nat.ltb_lt in E. split; [exact E|].
    repeat bind_inv H. injection H as <-.
    inversion Hall; subst. eauto.
  - left. apply Nat.ltb_ge in E. injection H as <-. split; [lia | reflexivity].
Qed.

Lemma trace_of_zone_facts : forall df z zone t,
  trace_of_zone df z zone t ->
  trace_name t = Some zone /\
  trace_lengths t
  = (zone_size z (nrows df) zone, zone_size z (nrows df) zone,
     zone_size z (nrows df) zone).
Proof.
  intros df z zone t (g & pm & w & c & _ & _ & _ & _ & ->).
  unfold zone_size. simpl. now rewrite !length_map.
Qed.

(** The scatter has one trace for each of Low, Medium and High Stress
    that has at least one ward, in that order, and none for a label
    without wards; the three arrays of a trace have one entry per ward of
    its zone; and the points of all traces are as many as the wards the
    overview counts in the three zones. *)
Theorem pm25_green_one_trace_per_populated_zone :
  forall df z f o,
    wf df ->
    getitem "stress_zone" df = Ok z ->
    pm25_green_body df = Ok f ->
    overview_body df = Ok o ->
    map trace_name (data f)
    = map Some
        (filter (fun zone => Nat.ltb 0 (zone_size z (nrows df) zone)) zones) /\
    Forall
      (fun t =>
         exists zone,
           trace_name t = Some zone /\
           0 < zone_size z (nrows df) zone /\
           trace_lengths t
           = (zone_size z (nrows df) zone, zone_size z (nrows df) zone,
              zone_size z (nrows df) zone))
      (data f) /\
    list_sum (map (fun t => fst (fst (trace_lengths t))) (data f))
    = high_stress_count o + medium_stress_count o + low_stress_count o.
Proof.
  intros df z f o Hwf Hz Hf Ho.
  unfold pm25_green_body in Hf. bind_inv_as Hf tss Htss.
  injection Hf as <-. apply for_each_ok in Htss.
  inversion Htss as [|? t1 ? r1 H1 Hr1]; subst.
  inversion Hr1 as [|? t2 ? r2 H2 Hr2]; subst.
  inversion Hr2 as [|? t3 ? r3 H3 Hr3]; subst.
  inversion Hr3; subst.
  cbn [data List.concat]. rewrite app_nil_r.
  destruct (overview_body_fields df o z Hwf Hz Ho) as (Hh & Hm & Hl).
  rewrite Hh, Hm, Hl, !occurrences_zone.
  assert (Hsize : forall zone,
            List.length (filter (fun b => b) (eq_str z zone))
            = zone_size z (nrows df) zone).
  { intros zone. unfold zone_size.
    apply getitem_lookup in Hz. apply (wf_lookup _ _ _ Hwf) in Hz.
    rewrite <- Hz. symmetry. apply selected_length. }
  rewrite !Hsize. unfold zones. cbn [filter].
  destruct (zone_trace_shape df z _ t1 Hwf Hz H1)
    as [[E1 ->]|[E1 (s1 & -> & T1)]];
    destruct (zone_trace_shape df z _ t2 Hwf Hz H2)
      as [[E2 ->]|[E2 (s2 & -> & T2)]];
    destruct (zone_trace_shape df z _ t3 Hwf Hz H3)
      as [[E3 ->]|[E3 (s3 & -> & T3)]];
    repeat match goal with
      | T : trace_of_zone _ _ _ _ |- _ =>
          apply trace_of_zone_facts in T; destruct T as [? ?]
      | E : zone_size _ _ _ = 0 |- _ => rewrite E
      | E : 0 < zone_size _ _ _ |- _ =>
          rewrite (proj2 (Nat.ltb_lt _ _) E)
      end;
    cbn [app map list_sum Nat.ltb Nat.leb];
    repeat match goal with
      | H : trace_name _ = _ |- _ => rewrite H
      | H : trace_lengths _ = _ |- _ => rewrite H
      end;
    cbn [fst snd]; unfold list_sum; cbn [fold_right];
    (split; [reflexivity|]);
    (split; [|lia]);
    repeat apply Forall_cons; try apply Forall_nil;
    eexists; repeat split; eassumption.
Qed.

Lemma pm25_green_one_trace_per_populated_zone_sample :
  exists z f,
    getitem "stress_zone" three_wards = Ok z /\
    pm25_green_body three_wards = Ok f /\
    map trace_name (data f)
    = map Some
        (filter (fun zone => Nat.ltb 0 (zone_size z 3 zone)) zones) /\
    map trace_name (data f) = [Some "Low Stress"; Some "High Stress"] /\
    Forall
      (fun t =>
         exists zone,
           trace_name t = Some zone /\
           0 < zone_size z 3 zone /\
           trace_lengths t
           = (zone_size z 3 zone, zone_size z 3 zone, zone_size z 3 zone))
      (data f) /\
    list_sum (map (fun t => fst (fst (trace_lengths t))) (data f)) = 2 + 0 + 1.
Proof.
  do 2 eexists. split; [reflexivity|]. split; [vm_compute; reflexivity|].
  assert (H := pm25_green_one_trace_per_populated_zone three_wards).
  specialize (H _ _
                (mkOverview 3 2 0 1 (Fin (round (Qmean [50; 10; 30]%Q) 1))
                   (Fin (round (Qmean [(1 # 2); (1 # 2); (9 # 10)]%Q) 3)))
                ltac:(repeat constructor) eq_refl eq_refl eq_refl).
  destruct H as (H1 & H2 & H3).
  split; [exact H1|]. split; [reflexivity|]. split; [exact H2 | exact H3].
Defined.

Lemma mask_list_all_false : forall (A : Type) (m : list bool) (l : list A),
  forallb negb m = true -> mask_list m l = [].
Proof.
  induction m as [|b m IH]; intros l H; [reflexivity|].
  destruct l as [|x l]; [reflexivity|]. simpl in *.
  apply andb_true_iff in H. destruct H as [Hb Hm].
  destruct b; [discriminate | now apply IH].
Qed.

Lemma no_known_zone_mask : forall z zone,
  forallb (fun c => negb (known_zone c)) (cells z) = true ->
  In zone zones ->
  forallb negb (eq_str z zone) = true.
Proof.
  intros [l|l] zone H Hzone; cbn [cells eq_str] in *.
  - clear H. induction l as [|x l IH]; simpl; auto.
  - induction l as [|x l IH]; cbn [map forallb] in *; [reflexivity|].
    apply andb_true_iff in H. destruct H as [Hx Hl].
    rewrite (IH Hl), andb_true_r.
    destruct (String.eqb x zone) eqn:E; [|reflexivity].
    apply String.eqb_eq in E. subst x.
    rewrite (zones_are_known zone Hzone) in Hx. discriminate.
Qed.

(** When no ward carries one of the three labels, the scatter is the
    empty figure with its layout, status 200, and the [green_cover],
    [pm25] and [ward] columns are not read: the answer is the same when
    they are missing. *)
Theorem pm25_green_without_known_zone :
  forall df z,
    getitem "stress_zone" df = Ok z ->
    forallb (fun c => negb (known_zone c)) (cells z) = true ->
    pm25_green (Some df)
    = (FigureJson
         (mkFigure []
            (Some (mkLayout "PM2.5 vs Green Cover" (Some "Green Cover (%)")
                     (Some "PM2.5 (µg/m³)") 450))), 200).
Proof.
  intros df z Hz Hnone.
  assert (Hzt : forall zone, In zone zones -> zone_trace df zone = Ok []).
  { intros zone Hzone. unfold zone_trace, zone_rows. rewrite Hz.
    cbn [bind]. unfold len, filter_rows, selected. cbn [nrows].
    rewrite mask_list_all_false by now apply no_known_zone_mask.
    reflexivity. }
  unfold pm25_green, pm25_green_body. cbn [for_each].
  rewrite !Hzt by (unfold zones, In; tauto). reflexivity.
Qed.

Lemma pm25_green_without_known_zone_sample :
  pm25_green (Some unknown_only)
  = (FigureJson
       (mkFigure []
          (Some (mkLayout "PM2.5 vs Green Cover" (Some "Green Cover (%)")
                   (Some "PM2.5 (µg/m³)") 450))), 200).
Proof.
  apply (pm25_green_without_known_zone unknown_only
           (StrCol ["Critical"])); reflexivity.
Defined.

Lemma zone_trace_missing : forall df z zone k,
  getitem "stress_zone" df = Ok z ->
  In zone zones ->
  first_missing ["green_cover"; "pm25"; "ward"] df = Some k ->
  zone_trace df zone
  = if Nat.ltb 0 (zone_size z (nrows df) zone)
    then Raise (KeyError k) else Ok [].
Proof.
  intros df z zone k Hz Hzone Hk. unfold zone_trace, zone_rows.
  rewrite Hz. cbn [bind].
  change (len (filter_rows (eq_str z zone) df))
    with (zone_size z (nrows df) zone).
  destruct (Nat.ltb 0 (zone_size z (nrows df) zone)); [|reflexivity].
  rewrite !getitem_filter_rows.
  unfold first_missing, has_col in Hk. unfold getitem. cbn [find] in Hk.
  destruct (lookup "green_cover" (cols df)); cbn [negb bind] in *;
    [|injection Hk as <-; reflexivity].
  destruct (lookup "pm25" (cols df)); cbn [negb bind] in *;
    [|injection Hk as <-; reflexivity].
  assert (Hc : exists col, colors_map zone = Some col).
  { destruct Hzone as [<-|[<-|[<-|[]]]]; eexists; reflexivity. }
  destruct Hc as [col ->]. cbn [bind].
  destruct (lookup "ward" (cols df)); cbn [negb bind] in *;
    [discriminate | injection Hk as <-; reflexivity].
Qed.

(** When some ward carries one of the three labels and one of the
    columns [green_cover], [pm25], [ward] is missing, the scatter answers
    500 with the [KeyError] of the first of them that is missing. *)
Theorem pm25_green_reports_first_missing_column :
  forall df z k,
    getitem "stress_zone" df = Ok z ->
    existsb (fun zone => Nat.ltb 0 (zone_size z (nrows df) zone)) zones = true ->
    first_missing ["green_cover"; "pm25"; "ward"] df = Some k ->
    pm25_green (Some df) = (ErrorJson (KeyError k), 500).
Proof.
  intros df z k Hz Hsome Hk.
  unfold pm25_green, pm25_green_body. cbn [for_each].
  rewrite !(zone_trace_missing df z _ k Hz) by (unfold zones, In; tauto || exact Hk).
  unfold zones in Hsome. cbn [existsb] in Hsome.
  destruct (Nat.ltb 0 (zone_size z (nrows df) "Low Stress"));
    [reflexivity|].
  destruct (Nat.ltb 0 (zone_size z (nrows df) "Medium Stress"));
    [reflexivity|].
  destruct (Nat.ltb 0 (zone_size z (nrows df) "High Stress"));
    [reflexivity | discriminate].
Qed.

Lemma pm25_green_reports_first_missing_column_sample :
  pm25_green (Some zones_only) = (ErrorJson (KeyError "green_cover"), 500).
Proof.
  apply (pm25_green_reports_first_missing_column zones_only
           (StrCol ["High Stress"; "Critical"]) "green_cover"); reflexivity.
Defined.

(** ** The map, continued *)

Ltac radius_cases :=
  unfold radius, max, min;
  repeat match goal with
    | |- context [Qltb ?a ?b] =>
        let E := fresh "E" in
        destruct (Qltb a b) eqn:E;
        [apply Qltb_true in E | apply Qltb_false in E]
    | H : context [Qltb ?a ?b] |- _ =>
        let E := fresh "E" in
        destruct (Qltb a b) eqn:E;
        [apply Qltb_true in E | apply Qltb_false in E]
    end;
  cbv beta iota in *.

(** Larger circles mean higher ESI, as the legend says: the radius never
    decreases when [esi] grows. *)
Theorem radius_monotone : forall a b : Q,
  (a <= b)%Q -> (radius a <= radius b)%Q.
Proof.
  intros a b Hab. radius_cases; lra.
Qed.

Lemma radius_monotone_sample : (radius (1 # 2) <= radius (9 # 10))%Q.
Proof.
  apply (radius_monotone (1 # 2) (9 # 10)). vm_compute. discriminate.
Defined.

(** The radius is 8 for every [esi] up to 0.15, 25 for every [esi] from
    1 on, and [5 + 20 * esi] in between. *)
Theorem radius_thresholds : forall esi : Q,
  ((esi <= 3 # 20)%Q -> (radius esi == 8)%Q) /\
  ((1 <= esi)%Q -> (radius esi == 25)%Q) /\
  ((3 # 20 <= esi <= 1)%Q -> (radius esi == 5 + esi * 20)%Q).
Proof.
  intros esi. repeat split; intros H; radius_cases; lra.
Qed.

Lemma colors_get_gray : forall stress,
  colors_get stress = "#999" <-> known_zone stress = false.
Proof.
  intros [q|s]; simpl; [tauto|]. unfold colors_map.
  destruct (String.eqb s "High Stress"); simpl; [split; discriminate|].
  destruct (String.eqb s "Medium Stress"); simpl; [split; discriminate|].
  destruct (String.eqb s "Low Stress"); simpl; [split; discriminate|].
  tauto.
Qed.

Lemma marker_of_row_colour : forall r m,
  marker_of_row r = Ok m ->
  exists stress lat lon,
    row_getitem "stress_zone" r = Ok stress /\
    row_getitem "lat" r = Ok (CNum lat) /\
    row_getitem "lon" r = Ok (CNum lon) /\
    location m = (lat, lon) /\
    marker_color m = colors_get stress /\
    fill_color m = colors_get stress /\
    popup_color (marker_popup m) = colors_get stress.
Proof.
  intros r m H. unfold marker_of_row in H.
  bind_inv_as H stress Hs. bind_inv_as H e He. bind_inv_as H esi Hesi.
  cbv zeta in H. bind_inv_as H ward Hw.
  bind_inv_as H lat Hlat. bind_inv_as Hlat clat Hclat.
  apply num_or_ok in Hlat. subst clat.
  bind_inv_as H lon Hlon. bind_inv_as Hlon clon Hclon.
  apply num_or_ok in Hlon. subst clon.
  repeat bind_inv H. injection H as <-.
  exists stress, lat, lon. repeat split; assumption.
Qed.

Lemma iterrows_length : forall df, List.length (iterrows df) = nrows df.
Proof.
  intros df. unfold iterrows. now rewrite length_map, length_seq.
Qed.

(** When the map is drawn it is centred on (18.52, 73.85) at zoom 11
    with the fixed legend and has one marker per ward, in row order, at
    the ward's coordinates; outline, fill and popup carry the colour of
    the ward's zone, which is gray exactly for a label outside the
    three. *)
Theorem map_has_one_coloured_marker_per_ward :
  forall df center zoom ms lg,
    map_body df = Ok (MapHtml center zoom ms lg) ->
    center = ((1852 # 100)%Q, (7385 # 100)%Q) /\
    zoom = 11 /\
    lg = legend /\
    List.length ms = nrows df /\
    Forall2
      (fun r m =>
         exists stress lat lon,
           row_getitem "stress_zone" r = Ok stress /\
           row_getitem "lat" r = Ok (CNum lat) /\
           row_getitem "lon" r = Ok (CNum lon) /\
           location m = (lat, lon) /\
           marker_color m = colors_get stress /\
           fill_color m = colors_get stress /\
           popup_color (marker_popup m) = colors_get stress /\
           (marker_color m = "#999" <-> known_zone stress = false))
      (iterrows df) ms.
Proof.
  intros df center zoom ms lg H. unfold map_body in H.
  bind_inv_as H ms' Hms. injection H as <- <- <- <-.
  apply for_each_ok in Hms.
  repeat split; try reflexivity.
  - rewrite <- (Forall2_length Hms). apply iterrows_length.
  - eapply Forall2_impl; [|exact Hms].
    intros r m Hm. apply marker_of_row_colour in Hm.
    destruct Hm as (stress & lat & lon & H1 & H2 & H3 & H4 & H5 & H6 & H7).
    exists stress, lat, lon. repeat split; try assumption;
      rewrite H5; apply colors_get_gray.
Qed.

Lemma map_has_one_coloured_marker_per_ward_sample :
  exists ms,
    map_body with_unknown_zone = Raise (KeyError "lat") /\
    map_body three_wards
    = Ok (MapHtml ((1852 # 100)%Q, (7385 # 100)%Q) 11 ms legend) /\
    List.length ms = 3 /\
    map marker_color ms = ["#2ecc71"; "#e74c3c"; "#e74c3c"].
Proof.
  eexists. split; [vm_compute; reflexivity|].
  split; [vm_compute; reflexivity|].
  split; [|reflexivity].
  apply (map_has_one_coloured_marker_per_ward three_wards
           ((1852 # 100)%Q, (7385 # 100)%Q) 11 _ legend).
  vm_compute. reflexivity.
Defined.

(** A loaded file without rows gives the map with its legend and no
    marker, status 200, whatever its columns are: no column is read. *)
Theorem map_of_no_rows : forall df : DataFrame,
  nrows df = 0 ->
  get_map (Some df)
  = (HtmlBody (MapHtml ((1852 # 100)%Q, (7385 # 100)%Q) 11 [] legend), 200).
Proof.
  intros df H. unfold get_map, map_body, iterrows. rewrite H. reflexivity.
Qed.

Lemma map_of_no_rows_sample :
  get_map (Some (mkFrame 0 []))
  = (HtmlBody (MapHtml ((1852 # 100)%Q, (7385 # 100)%Q) 11 [] legend), 200).
Proof.
  apply (map_of_no_rows (mkFrame 0 [])). reflexivity.
Defined.

Lemma row_getitem_missing : forall k df i,
  has_col k df = false -> row_getitem k (row_at df i) = Raise (KeyError k).
Proof.
  intros k df i H. unfold has_col in H. unfold row_getitem, row_at.
  rewrite row_lookup_row_at.
  destruct (lookup k (cols df)); [discriminate | reflexivity].
Qed.

Lemma marker_of_row_missing : forall k df i,
  In k map_columns ->
  has_col k df = false ->
  exists e, marker_of_row (row_at df i) = Raise e.
Proof.
  intros k df i Hk Hmiss.
  pose proof (row_getitem_missing k df i Hmiss) as Hraise.
  destruct (marker_of_row (row_at df i)) as [m|e] eqn:E; [|eauto].
  exfalso. unfold marker_of_row in E.
  bind_inv_as E stress Hs. bind_inv_as E e He. bind_inv_as E esi Hesi.
  cbv zeta in E. bind_inv_as E ward Hw.
  bind_inv_as E lat Hlat. bind_inv_as Hlat clat Hclat.
  bind_inv_as E lon Hlon. bind_inv_as Hlon clon Hclon.
  bind_inv_as E pm Hpm. bind_inv_as Hpm cpm Hcpm.
  bind_inv_as E heat Hheat. bind_inv_as Hheat cheat Hcheat.
  bind_inv_as E green Hgreen. bind_inv_as Hgreen cgreen Hcgreen.
  bind_inv_as E dens Hdens. bind_inv_as Hdens cdens Hcdens.
  unfold map_columns in Hk. simpl in Hk.
  repeat (destruct Hk as [<-|Hk]; [congruence|]). contradiction.
Qed.

(** When the frame has rows and lacks one of the columns the map reads,
    the first row already fails: the answer is the error fragment, still
    with status 200, and it names [stress_zone] when that is the column
    missing. *)
Theorem map_error_fragment_on_missing_column :
  forall df k,
    0 < nrows df ->
    In k map_columns ->
    has_col k df = false ->
    (exists e, get_map (Some df) = (HtmlBody (ErrorDiv (Some e)), 200)) /\
    (k = "stress_zone" ->
     get_map (Some df)
     = (HtmlBody (ErrorDiv (Some (KeyError "stress_zone"))), 200)).
Proof.
  intros df k Hn Hk Hmiss. unfold get_map, map_body, iterrows.
  destruct (nrows df) as [|n]; [lia|]. cbn [seq map for_each].
  split.
  - destruct (marker_of_row_missing k df 0 Hk Hmiss) as [e ->].
    cbn [bind]. eauto.
  - intros ->. unfold marker_of_row.
    rewrite (row_getitem_missing _ df 0 Hmiss). reflexivity.
Qed.

Lemma map_error_fragment_on_missing_column_sample :
  (exists e,
     get_map (Some with_unknown_zone) = (HtmlBody (ErrorDiv (Some e)), 200)) /\
  ("lat" = "stress_zone" ->
   get_map (Some with_unknown_zone)
   = (HtmlBody (ErrorDiv (Some (KeyError "stress_zone"))), 200)).
Proof.
  apply (map_error_fragment_on_missing_column with_unknown_zone "lat").
  - simpl. lia.
  - unfold map_columns, In. tauto.
  - reflexivity.
Defined.

(** ** The ward table, continued *)

Lemma select_by_first_missing : forall df,
  match first_missing ward_columns df with
  | Some k => select ward_columns df = Raise (KeyError k)
  | None => exists sel, select ward_columns df = Ok sel
  end.
Proof.
  intros df. unfold first_missing, select, ward_columns, has_col, getitem.
  cbn [find for_each].
  repeat match goal with
    | |- context [lookup ?k (cols df)] =>
        destruct (lookup k (cols df)); cbn [negb bind]; [|reflexivity]
    end.
  eauto.
Qed.

(** When one of its seven columns is missing, the ward table is the
    empty list with status 200. *)
Theorem get_wards_empty_on_missing_column :
  forall argsort df k,
    first_missing ward_columns df = Some k ->
    get_wards argsort (Some df) = (RecordsJson [], 200).
Proof.
  intros argsort df k H.
  pose proof (select_by_first_missing df) as Hsel. rewrite H in Hsel.
  unfold get_wards, wards_body. now rewrite Hsel.
Qed.

Lemma get_wards_empty_on_missing_column_sample :
  get_wards argsort_stable (Some with_unknown_zone) = (RecordsJson [], 200).
Proof.
  apply (get_wards_empty_on_missing_column argsort_stable with_unknown_zone
           "heat").
  reflexivity.
Defined.

Lemma wards_body_rows : forall argsort df sel,
  select ward_columns df = Ok sel ->
  exists c,
    getitem "esi" df = Ok c /\
    wards_body argsort df = Ok (map (row_at sel) (argsort (cells c))) /\
    forall i, map fst (row_at sel i) = ward_columns.
Proof.
  intros argsort df sel Hsel.
  destruct (select_ward_columns df sel Hsel)
    as (c1 & c2 & c3 & c4 & c5 & c6 & c7 & Hs & H6).
  exists c6. split; [exact H6|]. split.
  - assert (Hg : getitem "esi" sel = Ok c6) by (rewrite Hs; reflexivity).
    unfold wards_body. rewrite Hsel. cbn [bind].
    unfold sort_values_desc. rewrite Hg. cbn [bind].
    now rewrite records_take_rows.
  - intros i. rewrite Hs. reflexivity.
Qed.

(** When the seven columns are there, the ward table has one record per
    row of the dataset, each with exactly the keys ward, pm25, heat,
    pop_density, green_cover, esi, stress_zone, once each; the other
    columns of the dataset do not appear. *)
Theorem get_wards_one_record_per_ward :
  forall argsort df,
    argsort_spec argsort ->
    wf df ->
    first_missing ward_columns df = None ->
    exists rows,
      get_wards argsort (Some df) = (RecordsJson rows, 200) /\
      List.length rows = nrows df /\
      Forall (fun r => Permutation (map fst r) ward_columns) rows.
Proof.
  intros argsort df Hspec Hwf H.
  pose proof (select_by_first_missing df) as Hsel. rewrite H in Hsel.
  destruct Hsel as [sel Hsel].
  destruct (wards_body_rows argsort df sel Hsel) as (c & Hc & Hrows & Hkeys).
  eexists. split; [unfold get_wards; rewrite Hrows; reflexivity|].
  split.
  - rewrite length_map, (argsort_length _ _ Hspec), cells_length.
    apply getitem_lookup in Hc. now apply (wf_lookup _ _ _ Hwf) in Hc.
  - apply Forall_forall. intros r Hr. apply in_map_iff in Hr.
    destruct Hr as (i & <- & _). rewrite Hkeys. apply Permutation_refl.
Qed.

Lemma get_wards_one_record_per_ward_sample :
  exists rows,
    get_wards argsort_ties_reversed (Some three_wards) = (RecordsJson rows, 200) /\
    List.length rows = 3 /\
    Forall (fun r => Permutation (map fst r) ward_columns) rows.
Proof.
  apply (get_wards_one_record_per_ward argsort_ties_reversed three_wards).
  - apply argsort_ties_reversed_spec.
  - repeat constructor.
  - reflexivity.
Defined.

Lemma sorted_perm_unique : forall (R : nat -> nat -> Prop) l1 l2,
  Permutation l1 l2 ->
  StronglySorted R l1 ->
  StronglySorted R l2 ->
  (forall a b, In a l1 -> In b l1 -> R a b -> R b a -> a = b) ->
  l1 = l2.
Proof.
  intros R l1. induction l1 as [|a t1 IH]; intros l2 Hp H1 H2 Hanti.
  - apply Permutation_nil in Hp. now subst.
  - destruct l2 as [|b t2].
    + apply Permutation_sym, Permutation_nil in Hp. discriminate.
    + inversion H1 as [|? ? Ht1 Ha]; subst.
      inversion H2 as [|? ? Ht2 Hb]; subst.
      rewrite Forall_forall in Ha, Hb.
      assert (Hab : a = b).
      { assert (Hina : In a (b :: t2))
          by (apply (Permutation_in _ Hp); now left).
        assert (Hinb : In b (a :: t1))
          by (apply (Permutation_in _ (Permutation_sym Hp)); now left).
        destruct Hina as [Hba|Hina]; [now symmetry|].
        destruct Hinb as [Hab|Hinb]; [assumption|].
        apply Hanti; [now left | now right | now apply Ha | now apply Hb]. }
      subst b. f_equal. apply IH; auto.
      * now apply Permutation_cons_inv in Hp.
      * intros x y Hx Hy. apply Hanti; now right.
Qed.

Lemma argsort_determined_without_ties : forall a1 a2 es,
  argsort_spec a1 ->
  argsort_spec a2 ->
  (forall i j,
     i < List.length es -> j < List.length es ->
     (nth i es 0 == nth j es 0)%Q -> i = j) ->
  a1 (map CNum es) = a2 (map CNum es).
Proof.
  intros a1 a2 es H1 H2 Hdistinct.
  destruct (H1 (map CNum es)) as [Hp1 Hs1].
  destruct (H2 (map CNum es)) as [Hp2 Hs2].
  rewrite length_map in Hp1, Hp2.
  assert (Hss : forall idx,
            Sorted (desc_along (map CNum es)) idx ->
            StronglySorted (fun i j => (nth j es 0 <= nth i es 0)%Q) idx).
  { intros idx Hs. apply Sorted_StronglySorted.
    - intros a b c Hab Hbc. eapply Qle_trans; eassumption.
    - eapply sorted_map with (f := fun i => i) in Hs.
      + rewrite map_id in Hs. exact Hs.
      + intros i j Hij. unfold desc_along in Hij.
        change (CNum 0) with (CNum 0%Q) in Hij.
        rewrite !map_nth in Hij. simpl in Hij.
        now apply Qle_bool_iff in Hij. }
  apply (sorted_perm_unique (fun i j => (nth j es 0 <= nth i es 0)%Q)).
  - eapply perm_trans; [exact Hp1 | now apply Permutation_sym].
  - now apply Hss.
  - now apply Hss.
  - intros a b Ha Hb Hab Hba.
    apply (Permutation_in _ Hp1), in_seq in Ha.
    apply (Permutation_in _ Hp1), in_seq in Hb.
    apply Hdistinct; try lia. now apply Qle_antisym.
Qed.

(** Only ties leave the order of the ward table open: when no two wards
    have the same [esi], every sort, stable or not, gives the same
    table. *)
Theorem get_wards_determined_without_ties :
  forall a1 a2 df es,
    argsort_spec a1 ->
    argsort_spec a2 ->
    getitem "esi" df = Ok (NumCol es) ->
    (forall i j,
       i < List.length es -> j < List.length es ->
       (nth i es 0 == nth j es 0)%Q -> i = j) ->
    get_wards a1 (Some df) = get_wards a2 (Some df).
Proof.
  intros a1 a2 df es H1 H2 Hes Hdistinct. unfold get_wards.
  destruct (select ward_columns df) as [sel|e] eqn:Hsel.
  - destruct (wards_body_rows a1 df sel Hsel) as (c & Hc & Hr1 & _).
    destruct (wards_body_rows a2 df sel Hsel) as (c' & Hc' & Hr2 & _).
    rewrite Hes in Hc, Hc'. injection Hc as <-. injection Hc' as <-.
    rewrite Hr1, Hr2. cbn [cells].
    now rewrite (argsort_determined_without_ties a1 a2 es H1 H2 Hdistinct).
  - unfold wards_body. rewrite Hsel. reflexivity.
Qed.

Lemma get_wards_determined_without_ties_sample :
  get_wards argsort_stable (Some two_wards)
  = get_wards argsort_ties_reversed (Some two_wards) /\
  exists rows,
    get_wards argsort_stable (Some two_wards) = (RecordsJson rows, 200) /\
    map (row_get "ward" (CNum 0)) rows = [CStr "B"; CStr "A"].
Proof.
  split.
  - apply (get_wards_determined_without_ties argsort_stable
             argsort_ties_reversed two_wards [(3 # 10); (7 # 10)]%Q).
    + apply argsort_stable_spec.
    + apply argsort_ties_reversed_spec.
    + reflexivity.
    + intros [|[|i]] [|[|j]] Hi Hj Heq; simpl in Hi, Hj; try lia;
        vm_compute in Heq; discriminate.
  - eexists. split; vm_compute; reflexivity.
Defined.

(** ** The insights, continued *)

Lemma row_getitem_ok_has_col : forall k df i v,
  row_getitem k (row_at df i) = Ok v -> has_col k df = true.
Proof.
  intros k df i v H. destruct (has_col k df) eqn:E; [reflexivity|].
  rewrite (row_getitem_missing k df i E) in H. discriminate.
Qed.

Lemma insights_body_reads : forall df cards,
  insights_body df = Ok cards ->
  nrows df <> 0 /\
  (exists z, getitem "stress_zone" df = Ok z) /\
  (exists x pl, getitem "pm25" df = Ok (NumCol (x :: pl))) /\
  has_col "ward" df = true /\
  (exists g, getitem "green_cover" df = Ok g).
Proof.
  intros df cards H. unfold insights_body in H.
  bind_inv_as H h Hh. apply zone_rows_ok in Hh. destruct Hh as (z & Hz & _).
  bind_inv_as H pct Hpct. cbv zeta in H.
  bind_inv_as H pm Hpm. bind_inv_as H idx Hidx.
  bind_inv_as H pm' Hpm'. bind_inv_as H avg Havg.
  bind_inv_as H above Habove. bind_inv_as H name Hname.
  bind_inv_as H w Hw. bind_inv_as H w' Hw'. cbv zeta in H.
  bind_inv_as H g Hg.
  split.
  { unfold len in Hpct. destruct (nrows df); [discriminate | lia]. }
  split; [eauto|]. split; [|split; eauto].
  - destruct pm as [[|x pl]|l]; try discriminate. eauto.
  - now apply row_getitem_ok_has_col in Hname.
Qed.

(** The insights are the empty list, status 200, for every file without
    rows, for every file that lacks one of the columns [stress_zone],
    [pm25], [ward], [green_cover], and for every file whose [pm25]
    column is text.  For a file without rows that has a [stress_zone]
    column the exception swallowed is the division by the row count. *)
Theorem insights_empty_on_unusable_data : forall df : DataFrame,
  (nrows df = 0 -> get_insights (Some df) = (InsightsJson [], 200)) /\
  (nrows df = 0 -> has_col "stress_zone" df = true ->
   insights_body df = Raise ZeroDivisionError) /\
  (forall k,
     In k insight_columns -> has_col k df = false ->
     get_insights (Some df) = (InsightsJson [], 200)) /\
  (forall l,
     getitem "pm25" df = Ok (StrCol l) ->
     get_insights (Some df) = (InsightsJson [], 200)).
Proof.
  intros df.
  assert (Hnone : forall (P : Prop),
            (forall cards, insights_body df = Ok cards -> P -> False) ->
            P -> get_insights (Some df) = (InsightsJson [], 200)).
  { intros P HP Hp. unfold get_insights.
    destruct (insights_body df) as [cards|e] eqn:E; [|reflexivity].
    exfalso. exact (HP cards eq_refl Hp). }
  split; [|split; [|split]].
  - apply Hnone. intros cards Hc Hn.
    apply insights_body_reads in Hc. tauto.
  - intros Hn Hz. unfold insights_body, zone_rows, getitem.
    unfold has_col in Hz.
    destruct (lookup "stress_zone" (cols df)); [|discriminate].
    cbn [bind]. unfold len. rewrite Hn. reflexivity.
  - intros k Hk. apply Hnone. intros cards Hc Hmiss.
    apply insights_body_reads in Hc.
    destruct Hc as (_ & (z & Hz) & (x & pl & Hpm) & Hw & (g & Hg)).
    unfold has_col in Hmiss, Hw. unfold getitem in Hz, Hpm, Hg.
    unfold insight_columns in Hk. simpl in Hk.
    destruct Hk as [<-|[<-|[<-|[<-|[]]]]];
      match type of Hmiss with
      | context [lookup ?key (cols df)] =>
          destruct (lookup key (cols df)); discriminate
      end.
  - intros l. apply Hnone. intros cards Hc Hl.
    apply insights_body_reads in Hc.
    destruct Hc as (_ & _ & (x & pl & Hpm) & _). congruence.
Qed.

Lemma argmax_from_spec : forall l best besti i,
  exists v,
    (best <= v)%Q /\
    Forall (fun x => (x <= v)%Q) l /\
    ((argmax_from best besti i l = besti /\ v = best) \/
     (i <= argmax_from best besti i l < i + List.length l /\
      nth (argmax_from best besti i l - i) l 0%Q = v /\
      (best < v)%Q /\
      forall j, j < argmax_from best besti i l - i -> (nth j l 0 < v)%Q)).
Proof.
  induction l as [|x t IH]; intros best besti i; simpl.
  - exists best. split; [apply Qle_refl|]. split; [constructor | now left].
  - destruct (Qltb best x) eqn:E.
    + apply Qltb_true in E.
      destruct (IH x i (S i)) as (v & Hxv & Hall & Hcase).
      set (r := argmax_from x i (S i) t) in *.
      exists v. split; [lra|]. split; [now constructor|]. right.
      destruct Hcase as [[Hr Hv]|(Hr & Hn & Hlt & Hbefore)].
      * rewrite Hr, Nat.sub_diag. subst v.
        split; [lia|]. split; [reflexivity|]. split; [exact E|].
        intros j Hj. lia.
      * replace (r - i) with (S (r - S i)) by lia.
        split; [lia|]. split; [exact Hn|]. split; [lra|].
        intros [|j] Hj; simpl; [exact Hlt | apply Hbefore; lia].
    + apply Qltb_false in E.
      destruct (IH best besti (S i)) as (v & Hbv & Hall & Hcase).
      set (r := argmax_from best besti (S i) t) in *.
      exists v. split; [exact Hbv|]. split; [constructor; [lra | exact Hall]|].
      destruct Hcase as [[Hr Hv]|(Hr & Hn & Hlt & Hbefore)];
        [now left | right].
      replace (r - i) with (S (r - S i)) by lia.
      split; [lia|]. split; [exact Hn|]. split; [exact Hlt|].
      intros [|j] Hj; simpl; [lra | apply Hbefore; lia].
Qed.

Lemma idxmax_spec : forall pl i,
  idxmax (NumCol pl) = Ok i ->
  i < List.length pl /\
  Forall (fun x => (x <= nth i pl 0)%Q) pl /\
  forall j, j < i -> (nth j pl 0 < nth i pl 0)%Q.
Proof.
  intros [|x t] i H; simpl in H; [discriminate|]. injection H as <-.
  destruct (argmax_from_spec t x 0 1) as (v & Hxv & Hall & Hcase).
  set (r := argmax_from x 0 1 t) in *.
  destruct Hcase as [[Hr Hv]|(Hr & Hn & Hlt & Hbefore)].
  - rewrite Hr. subst v. simpl.
    split; [lia|]. split; [constructor; [apply Qle_refl | exact Hall]|].
    intros j Hj. lia.
  - destruct r as [|r]; [lia|]. simpl in *. rewrite Nat.sub_0_r in *.
    rewrite Hn. split; [lia|]. split; [now constructor|].
    intros [|j] Hj; [exact Hlt | apply Hbefore; lia].
Qed.

(** The Pollution Hotspot card, when the insights are computed, names
    the ward of the first row whose [pm25] is the largest of the column,
    with that value. *)
Theorem insights_hotspot_is_first_maximum :
  forall df cards,
    insights_body df = Ok cards ->
    exists pl i name above,
      getitem "pm25" df = Ok (NumCol pl) /\
      i < List.length pl /\
      Forall (fun x => (x <= nth i pl 0)%Q) pl /\
      (forall j, j < i -> (nth j pl 0 < nth i pl 0)%Q) /\
      row_getitem "ward" (row_at df i) = Ok name /\
      nth_error cards 1
      = Some (mkCard "pollution" "Pollution Hotspot"
                ("{}: {:.1f} µg/m³", [ACell name; ANum (nth i pl 0%Q)])
                ("{:.0f}% above avg", [ANum above])).
Proof.
  intros df cards H. unfold insights_body in H.
  bind_inv_as H h Hh. bind_inv_as H pct Hpct. cbv zeta in H.
  bind_inv_as H pm Hpm. bind_inv_as H idx Hidx.
  bind_inv_as H pm' Hpm'. bind_inv_as H avg Havg.
  bind_inv_as H above Habove. bind_inv_as H name Hname.
  bind_inv_as H w Hw. bind_inv_as H w' Hw'. cbv zeta in H.
  repeat (bind_inv H; cbv beta zeta in H).
  injection H as <-.
  rewrite Hpm in Hpm'. injection Hpm' as <-.
  destruct pm as [pl|l]; [|discriminate].
  destruct (idxmax_spec pl idx Hidx) as (Hi & Hmax & Hfirst).
  apply getitem_lookup in Hpm.
  rewrite (row_getitem_row_at _ _ _ _ Hpm) in Hw.
  assert (Hw0 : w = CNum (nth idx pl 0%Q)) by (simpl in Hw; congruence).
  subst w. clear Hw.
  assert (Hw1 : w' = nth idx pl 0%Q) by (simpl in Hw'; congruence).
  subst w'. clear Hw'.
  exists pl, idx, name, above.
  apply getitem_lookup in Hpm.
  split; [exact Hpm|]. split; [exact Hi|]. split; [exact Hmax|].
  split; [exact Hfirst|]. split; [exact Hname | reflexivity].
Qed.

Lemma insights_hotspot_is_first_maximum_sample :
  exists cards pl i name above,
    insights_body three_wards = Ok cards /\
    name = CStr "A" /\
    getitem "pm25" three_wards = Ok (NumCol pl) /\
    i < List.length pl /\
    Forall (fun x => (x <= nth i pl 0)%Q) pl /\
    (forall j, j < i -> (nth j pl 0 < nth i pl 0)%Q) /\
    row_getitem "ward" (row_at three_wards i) = Ok name /\
    nth_error cards 1
    = Some (mkCard "pollution" "Pollution Hotspot"
              ("{}: {:.1f} µg/m³", [ACell name; ANum (nth i pl 0%Q)])
              ("{:.0f}% above avg", [ANum above])).
Proof.
  destruct (insights_body three_wards) as [cards|e] eqn:E;
    [|vm_compute in E; discriminate].
  destruct (insights_hotspot_is_first_maximum three_wards cards E)
    as (pl & i & name & above & H1 & H2 & H3 & H4 & H5 & H6).
  exists cards, pl, i, name, above.
  split; [reflexivity|]. split; [|repeat split; assumption].
  vm_compute in E. injection E as <-.
  simpl in H6. injection H6 as -> _ _. reflexivity.
Defined.

(** The Critical Zones card agrees with the overview: its count is the
    overview's [high_stress_count], and its percentage is that count over
    [total_wards], between 0 and 100. *)
Theorem insights_critical_share_matches_overview :
  forall df cards o,
    wf df ->
    insights_body df = Ok cards ->
    overview_body df = Ok o ->
    exists pct,
      nth_error cards 0
      = Some (mkCard "critical" "Critical Zones"
                ("{} wards ({:.0f}%) need urgent intervention",
                 [ANat (high_stress_count o); ANum pct])
                ("High ESI > 0.65", [])) /\
      pct = (inject_Z (Z.of_nat (high_stress_count o))
             / inject_Z (Z.of_nat (total_wards o)) * 100)%Q /\
      (0 <= pct <= 100)%Q.
Proof.
  intros df cards o Hwf H Ho.
  destruct (overview_body_zone df o Ho) as [z Hz].
  destruct (overview_body_counts df o z Hwf Hz Ho) as [Htot Hsum].
  assert (Hhigh : zone_rows "High Stress" df
                  = Ok (filter_rows (eq_str z "High Stress") df)).
  { unfold zone_rows. now rewrite Hz. }
  assert (Ho' := Ho). unfold overview_body in Ho'.
  rewrite Hhigh in Ho'. cbn [bind] in Ho'.
  repeat bind_inv Ho'. injection Ho' as Ho'.
  unfold insights_body in H. rewrite Hhigh in H. cbn [bind] in H.
  bind_inv_as H pct Hpct. cbv zeta in H.
  repeat (bind_inv H; cbv beta zeta in H).
  injection H as <-.
  assert (Hc : len (filter_rows (eq_str z "High Stress") df)
               = high_stress_count o) by (rewrite <- Ho'; reflexivity).
  assert (Ht : len df = total_wards o) by (rewrite <- Ho'; reflexivity).
  assert (Hc2 : List.length (selected (eq_str z "High Stress") (nrows df))
                = high_stress_count o) by exact Hc.
  rewrite ?Hc, ?Hc2, Ht in Hpct. rewrite ?Hc, ?Hc2.
  destruct (Nat.eqb (total_wards o) 0) eqn:E; [discriminate|].
  apply Nat.eqb_neq in E. injection Hpct as <-.
  eexists. split; [reflexivity|]. split; [reflexivity|].
  set (c := inject_Z (Z.of_nat (high_stress_count o))).
  set (t := inject_Z (Z.of_nat (total_wards o))).
  assert (Hc0 : (0 <= c)%Q).
  { subst c. change 0%Q with (inject_Z 0). rewrite <- Zle_Qle. lia. }
  assert (Ht0 : (0 < t)%Q).
  { subst t. change 0%Q with (inject_Z 0). rewrite <- Zlt_Qlt. lia. }
  assert (Hct : (c <= t)%Q).
  { subst c t. rewrite <- Zle_Qle. lia. }
  assert (H0 : (0 <= c / t)%Q)
    by (apply Qle_shift_div_l; [exact Ht0 | lra]).
  assert (H1 : (c / t <= 1)%Q)
    by (apply Qle_shift_div_r; [exact Ht0 | lra]).
  lra.
Qed.

Lemma insights_critical_share_matches_overview_sample :
  exists cards pct,
    insights_body three_wards = Ok cards /\
    nth_error cards 0
    = Some (mkCard "critical" "Critical Zones"
              ("{} wards ({:.0f}%) need urgent intervention",
               [ANat 2; ANum pct])
              ("High ESI > 0.65", [])) /\
    pct = (inject_Z (Z.of_nat 2) / inject_Z (Z.of_nat 3) * 100)%Q /\
    (0 <= pct <= 100)%Q.
Proof.
  destruct (insights_body three_wards) as [cards|e] eqn:E;
    [|vm_compute in E; discriminate].
  destruct (insights_critical_share_matches_overview three_wards cards
              (mkOverview 3 2 0 1 (Fin (round (Qmean [50; 10; 30]%Q) 1))
                 (Fin (round (Qmean [(1 # 2); (1 # 2); (9 # 10)]%Q) 3)))
              ltac:(repeat constructor) E eq_refl)
    as (pct & H1 & H2 & H3).
  exists cards, pct. split; [reflexivity|].
  split; [exact H1|]. split; [exact H2 | exact H3].
Defined.
